(** * GeocodeFarm geocoder: request construction, response interpretation

    A shallow embedding of [geopy/geocoders/geocodefarm.py] and the
    properties of its request builder and response interpreter.

    Conventions.
    - A decoded JSON body is a Python object: [value] below has one
      constructor per type [json.loads] can produce.  JSON objects are
      Python dicts keyed by strings, used by the code only through [.get]
      and [[...]], hence finite maps.
    - Python exceptions are the constructors of [exn]; a computation that
      may raise returns a [result].
    - Strings are sequences of 8-bit characters: text in the ASCII range,
      or the bytes of its UTF-8 encoding, which is what [quote_plus]
      escapes.
    - What lies outside the module (the builtins [float] and [%], the
      transport [_call_geocoder], [_coerce_point_to_string]) is a Variable
      of the section that uses it. *)

From Stdlib Require Import Floats.PrimFloat Ascii String.
From stdpp Require Import gmap strings list.

Set Warnings "-register-all".

(** ** Python objects *)

Inductive value :=
| VNone
| VBool (b : bool)
| VInt (z : Z)
| VFloat (f : PrimFloat.float)
| VStr (s : string)
| VList (l : list value)
| VDict (d : gmap string value).

(** ** Exceptions *)

Inductive exn :=
| AttributeError
| TypeError
| IndexError
| KeyError (key : string)
| ValueError (msg : string)
| OtherError (name : string)  (* any other exception, the transport's say *)
| GeocoderAuthenticationFailure (detail : value)
| GeocoderQuotaExceeded (detail : value)
| GeocoderServiceError (detail : value).

Inductive result (A : Type) :=
| Ok (a : A)
| Raise (e : exn).

Arguments Ok {A} a.
Arguments Raise {A} e.

#[global] Instance result_ret : MRet result := λ A a, Ok a.

#[global] Instance result_bind : MBind result := λ A B k m,
  match m with
  | Ok a => k a
  | Raise e => Raise e
  end.

Definition is_Ok {A} (r : result A) : Prop := ∃ a, r = Ok a.

(** ** Builtins on Python objects *)

(** [bool(v)]: the truth value Python gives an object in [if] and [and]. *)
Definition truthy (v : value) : bool :=
  match v with
  | VNone => false
  | VBool b => b
  | VInt z => negb (Z.eqb z 0)
  | VFloat f => negb (PrimFloat.eqb f PrimFloat.zero)
  | VStr s => negb (String.eqb s "")
  | VList l => match l with [] => false | _ :: _ => true end
  | VDict d => negb (bool_decide (d = ∅))
  end.

(** [v.get(key, dflt)]: only dicts have the method. *)
Definition py_get (v : value) (key : string) (dflt : value) : result value :=
  match v with
  | VDict d => Ok (default dflt (d !! key))
  | _ => Raise AttributeError
  end.

(** [v[key]] with a string key: [KeyError] on a dict without the key; the
    other JSON types reject a string subscript with [TypeError]. *)
Definition py_getitem (v : value) (key : string) : result value :=
  match v with
  | VDict d =>
      match d !! key with
      | Some x => Ok x
      | None => Raise (KeyError key)
      end
  | _ => Raise TypeError
  end.

(** [s.startswith(p)] and [needle in hay] on strings. *)
Fixpoint startswith (p s : string) : bool :=
  match p, s with
  | EmptyString, _ => true
  | String _ _, EmptyString => false
  | String a p', String b s' => if Ascii.eqb a b then startswith p' s' else false
  end.

Fixpoint str_contains (needle hay : string) : bool :=
  startswith needle hay ||
  match hay with
  | EmptyString => false
  | String _ hay' => str_contains needle hay'
  end.

(** [v == s] for a string literal [s]. *)
Definition eq_str (v : value) (s : string) : bool :=
  match v with
  | VStr t => String.eqb t s
  | _ => false
  end.

(** [needle in container] for a string literal [needle]: substring test on
    a string, element test on a list, key test on a dict; the other types
    are not iterable. *)
Definition py_in (needle : string) (container : value) : result bool :=
  match container with
  | VStr s => Ok (str_contains needle s)
  | VList l => Ok (existsb (λ v, eq_str v needle) l)
  | VDict d => Ok (bool_decide (is_Some (d !! needle)))
  | _ => Raise TypeError
  end.

(** [for x in v]: the elements a [for] loop visits.  A dict yields its keys;
    the loop of [parse_code] fails on the first of them whatever it is. *)
Definition py_iter (v : value) : result (list value) :=
  match v with
  | VList l => Ok l
  | VStr s => Ok ((λ c, VStr (String c EmptyString)) <$> String.list_ascii_of_string s)
  | VDict d => Ok ((λ kv, VStr kv.1) <$> map_to_list d)
  | _ => Raise TypeError
  end.

(** [d.get(k, dflt)] on a dict literal with string keys, for a key that is
    any Python object: lists and dicts are unhashable, and no other object
    than the string itself equals a string key. *)
Definition dict_get {A} (d : gmap string A) (k : value) (dflt : A) : result A :=
  match k with
  | VStr s => Ok (default dflt (d !! s))
  | VList _ | VDict _ => Raise TypeError
  | _ => Ok dflt
  end.

(** [l[0]]. *)
Definition first {A} (l : list A) : result A :=
  match l with
  | x :: _ => Ok x
  | [] => Raise IndexError
  end.

(** ** Locations *)

(** Modelled from the spec: [geopy.location.Location] is not part of this
    module.  A NormalizedLocation holds a display name, a coordinate pair
    whose components are floats or null, and a reference to the raw result
    mapping; it is created per entry and not changed afterwards.  The record
    keeps the three arguments [parse_code] hands to the constructor;
    [point] is the pair as handed over, and [coordinate_pair] below is the
    pair of the NormalizedLocation. *)
Record Location := mkLocation {
  address : value;
  point : value * value;
  raw : value;
}.



(** What [geocode], [reverse] and [_parse_json] return: [None], one
    location, or a list of them. *)
Inductive answer :=
| NoResult
| One (place : Location)
| Many (places : list Location).

(** ** The response interpreter *)

Section Interpreter.

(** The builtin [float(x)]. *)
Variable py_float : value → result PrimFloat.float.

(** The body of the loop of [parse_code], for one entry [result]. *)
Definition parse_entry (entry : value) : result Location :=
  coordinates ← py_get entry "COORDINATES" (VDict ∅);
  address ← py_get entry "ADDRESS" (VDict ∅);
  latitude ← py_get coordinates "latitude" VNone;
  longitude ← py_get coordinates "longitude" VNone;
  placename ← py_get address "address_returned" VNone;
  placename ← match placename with
              | VNone => py_get address "address" VNone
              | _ => Ok placename
              end;
  '(latitude, longitude) ←
    (if truthy latitude && truthy longitude then
       lat ← py_float latitude;
       lon ← py_float longitude;
       Ok (VFloat lat, VFloat lon)
     else Ok (latitude, longitude));
  Ok (mkLocation placename (latitude, longitude) entry).

(** The loop: [places] is the list built so far, appended to in place. *)
Fixpoint parse_code_loop (entries : list value) (places : list Location)
  : result (list Location) :=
  match entries with
  | [] => Ok places
  | entry :: rest =>
      place ← parse_entry entry;
      parse_code_loop rest (places ++ [place])
  end.

Definition parse_code (results : value) : result (list Location) :=
  seq ← py_get results "RESULTS" VNone;
  entries ← py_iter seq;
  parse_code_loop entries [].

Definition access_error_to_exception : gmap string (value → exn) :=
  {[ "API_KEY_INVALID" := GeocoderAuthenticationFailure;
     "OVER_QUERY_LIMIT" := GeocoderQuotaExceeded ]}.

Definition _check_for_api_errors (geocoding_results : value) : result unit :=
  status_result ← py_get geocoding_results "STATUS" (VDict ∅);
  status ← py_get status_result "status" (VStr "");
  no_results ← py_in "NO_RESULTS" status;
  if no_results : bool then Ok tt else
  status ← py_get status_result "status" (VStr "");
  let api_call_success := eq_str status "SUCCESS" in
  if negb api_call_success then
    access_error ← py_get status_result "access" VNone;
    exception_cls ← dict_get access_error_to_exception access_error
                              GeocoderServiceError;
    Raise (exception_cls access_error)
  else Ok tt.

Definition _parse_json (api_result : value) (exactly_one : bool)
  : result answer :=
  match api_result with
  | VNone => Ok NoResult
  | _ =>
      geocoding_results ← py_getitem api_result "geocoding_results";
      _ ← _check_for_api_errors geocoding_results;
      status_result ← py_get geocoding_results "STATUS" (VDict ∅);
      status ← py_get status_result "status" (VStr "");
      no_results ← py_in "NO_RESULTS" status;
      if no_results : bool then Ok NoResult else
      places ← parse_code geocoding_results;
      if exactly_one then place ← first places; Ok (One place)
      else Ok (Many places)
  end.

End Interpreter.

(** ** Strings *)

(** [s.split(sep)] for a one-character separator: never an empty list. *)
Fixpoint split (sep : ascii) (s : string) : list string :=
  match s with
  | EmptyString => [EmptyString]
  | String c s' =>
      if Ascii.eqb c sep then EmptyString :: split sep s'
      else match split sep s' with
           | [] => [String c EmptyString]
           | w :: ws => String c w :: ws
           end
  end.

(** [c in s] for a character. *)
Fixpoint occurs (c : ascii) (s : string) : bool :=
  match s with
  | EmptyString => false
  | String c' s' => Ascii.eqb c' c || occurs c s'
  end.

(** The string with the given bytes. *)
Definition utf8 (bytes : list nat) : string :=
  string_of_list_ascii (ascii_of_nat <$> bytes).

(** The code points [str.isspace] accepts, which are the ones [str.strip()]
    removes, each in its UTF-8 encoding: U+0009-U+000D, U+001C-U+0020,
    U+0085, U+00A0, U+1680, U+2000-U+200A, U+2028, U+2029, U+202F, U+205F
    and U+3000. *)
Definition whitespace : list string :=
  utf8 <$> [ [9]; [10]; [11]; [12]; [13]; [28]; [29]; [30]; [31]; [32];
             [194; 133]; [194; 160]; [225; 154; 128];
             [226; 128; 128]; [226; 128; 129]; [226; 128; 130];
             [226; 128; 131]; [226; 128; 132]; [226; 128; 133];
             [226; 128; 134]; [226; 128; 135]; [226; 128; 136];
             [226; 128; 137]; [226; 128; 138];
             [226; 128; 168]; [226; 128; 169]; [226; 128; 175];
             [226; 129; 159]; [227; 128; 128] ].

(** [ch.isspace()] for one code point, given by its encoding. *)
Definition isspace (ch : string) : bool := bool_decide (ch ∈ whitespace).

(** [s.lstrip()]: the leading whitespace code points are dropped; a code
    point takes one, two or three bytes. *)
Fixpoint lstrip (s : string) : string :=
  match s with
  | EmptyString => EmptyString
  | String b1 s1 =>
      if isspace (String b1 EmptyString) then lstrip s1
      else match s1 with
           | EmptyString => s
           | String b2 s2 =>
               if isspace (String b1 (String b2 EmptyString)) then lstrip s2
               else match s2 with
                    | EmptyString => s
                    | String b3 s3 =>
                        if isspace (String b1 (String b2 (String b3 EmptyString)))
                        then lstrip s3 else s
                    end
           end
  end.

(** [s.isspace()] or [s] empty: nothing but whitespace code points. *)
Fixpoint all_space (s : string) : bool :=
  match s with
  | EmptyString => true
  | String b1 s1 =>
      if isspace (String b1 EmptyString) then all_space s1
      else match s1 with
           | EmptyString => false
           | String b2 s2 =>
               if isspace (String b1 (String b2 EmptyString)) then all_space s2
               else match s2 with
                    | EmptyString => false
                    | String b3 s3 =>
                        isspace (String b1 (String b2 (String b3 EmptyString)))
                        && all_space s3
                    end
           end
  end.

(** [s.rstrip()]: the text up to the trailing run of whitespace code
    points.  No byte inside the encoding of a code point begins the
    encoding of a whitespace code point, so the run is found bytewise. *)
Fixpoint rstrip (s : string) : string :=
  match s with
  | EmptyString => EmptyString
  | String b s' => if all_space s then EmptyString else String b (rstrip s')
  end.

Definition strip (s : string) : string := rstrip (lstrip s).

(** ** Ordered dicts of strings: the [params] of a request *)

Definition params_t := list (string * string).

(** [d[k] = v]: replaces the value of a present key in place, appends a new
    key at the end. *)
Fixpoint setitem (d : params_t) (k v : string) : params_t :=
  match d with
  | [] => [(k, v)]
  | (k', v') :: d' =>
      if String.eqb k' k then (k, v) :: d' else (k', v') :: setitem d' k v
  end.

(** ** URL encoding *)

Definition hex_digit (n : nat) : ascii :=
  default "0"%char (String.list_ascii_of_string "0123456789ABCDEF" !! n).

Definition is_alnum (c : ascii) : bool :=
  let n := nat_of_ascii c in
  (48 <=? n)%nat && (n <=? 57)%nat || (65 <=? n)%nat && (n <=? 90)%nat
  || (97 <=? n)%nat && (n <=? 122)%nat.

Definition always_safe (c : ascii) : bool :=
  is_alnum c || Ascii.eqb c "_" || Ascii.eqb c "." || Ascii.eqb c "-"
  || Ascii.eqb c "~".

Definition quote_byte (c : ascii) : string :=
  if Ascii.eqb c " " then "+"
  else if always_safe c then String c EmptyString
  else let n := nat_of_ascii c in
       String "%" (String (hex_digit (n / 16))
                      (String (hex_digit (n mod 16)) EmptyString)).

(** [quote_plus(s)] with the default empty [safe]. *)
Fixpoint quote_plus (s : string) : string :=
  match s with
  | EmptyString => EmptyString
  | String c s' => quote_byte c +:+ quote_plus s'
  end.

(** Modelled from the spec: [geopy.compat.urlencode] is not part of this
    module; the builder "URL-encodes all parameter values".  It is Python's
    [urlencode] on a dict of strings: [quote_plus(k) + '=' + quote_plus(v)]
    for each item in the dict's order, joined with ['&']. *)
Definition quote_item (kv : string * string) : string :=
  quote_plus kv.1 +:+ "=" +:+ quote_plus kv.2.

Definition urlencode (query : params_t) : string :=
  String.concat "&" (quote_item <$> query).

(** ** URL decoding: what a URL's parameter set is *)

Definition hex_value (c : ascii) : option nat :=
  let n := nat_of_ascii c in
  if (48 <=? n)%nat && (n <=? 57)%nat then Some (n - 48)%nat
  else if (65 <=? n)%nat && (n <=? 70)%nat then Some (n - 55)%nat
  else if (97 <=? n)%nat && (n <=? 102)%nat then Some (n - 87)%nat
  else None.

(** [unquote_plus(s)]: ['+'] is a space, ["%XY"] the byte with that
    hexadecimal code, a ['%'] not followed by two hex digits stays. *)
Fixpoint unquote_plus (s : string) : string :=
  match s with
  | EmptyString => EmptyString
  | String c t =>
      if Ascii.eqb c "+" then String " " (unquote_plus t)
      else if Ascii.eqb c "%" then
        match t with
        | String h (String l rest) =>
            match hex_value h, hex_value l with
            | Some a, Some b =>
                String (ascii_of_nat (16 * a + b)) (unquote_plus rest)
            | _, _ => String c (unquote_plus t)
            end
        | _ => String c (unquote_plus t)
        end
      else String c (unquote_plus t)
  end.

(** [s.split(sep, 1)] when it has two parts. *)
Fixpoint split_once (sep : ascii) (s : string) : option (string * string) :=
  match s with
  | EmptyString => None
  | String c s' =>
      if Ascii.eqb c sep then Some (EmptyString, s')
      else match split_once sep s' with
           | Some (a, b) => Some (String c a, b)
           | None => None
           end
  end.

(** The characters that delimit a query string and its items. *)
Definition delimiter (x : ascii) : bool :=
  Ascii.eqb x "&" || Ascii.eqb x "=" || Ascii.eqb x "?" || Ascii.eqb x "#".

(** [parse_qsl(qs, keep_blank_values=True)]: the items between ['&'], each
    split at its first ['='] and unquoted; empty items are skipped. *)
Definition parse_name_value (name_value : string) : params_t :=
  if String.eqb name_value "" then []
  else match split_once "=" name_value with
       | Some (n, v) => [(unquote_plus n, unquote_plus v)]
       | None => [(unquote_plus name_value, EmptyString)]
       end.

Definition parse_qsl (qs : string) : params_t :=
  split "&" qs ≫= parse_name_value.

(** The text before / after the first occurrence of a character. *)
Fixpoint before (sep : ascii) (s : string) : string :=
  match s with
  | EmptyString => EmptyString
  | String c s' => if Ascii.eqb c sep then EmptyString else String c (before sep s')
  end.

Fixpoint after (sep : ascii) (s : string) : string :=
  match s with
  | EmptyString => EmptyString
  | String c s' => if Ascii.eqb c sep then s' else after sep s'
  end.

(** The query component of a URL: between the first ['?'] and the
    fragment. *)
Definition url_query (url : string) : string := after "?" (before "#" url).

(** The parameter set a URL decodes to. *)
Definition url_params (url : string) : gmap string string :=
  list_to_map (parse_qsl (url_query url)).

(** ** The request builder and the two public operations *)

(** The client object after construction. *)
Record GeocodeFarm := mkGeocodeFarm {
  api_key : option string;
  format_string : string;
  scheme : string;
  api : string;
  reverse_api : string;
  class_name : string;
}.

(** [__init__].  Modelled from the spec: the constructor of the base class
    [Geocoder] is not part of this module; it keeps the template and the
    scheme it is given, here ['https'].  The two endpoints are the scheme
    followed by a fixed text.  [cls] is [self.__class__.__name__]. *)
Definition __init__ (cls : string) (api_key : option string)
    (format_string : string) : GeocodeFarm :=
  let scheme := "https" in
  {| api_key := api_key;
     format_string := format_string;
     scheme := scheme;
     api := scheme +:+ "://www.geocode.farm/v3/json/forward/";
     reverse_api := scheme +:+ "://www.geocode.farm/v3/json/reverse/";
     class_name := cls |}.

(** [if self.api_key]: neither [None] nor the empty string. *)
Definition truthy_key (k : option string) : bool :=
  match k with
  | Some s => negb (String.eqb s "")
  | None => false
  end.

(** [a, b = l]. *)
Definition unpack2 {A} (l : list A) : result (A * A) :=
  match l with
  | [a; b] => Ok (a, b)
  | _ => Raise (ValueError "wrong number of values to unpack")
  end.

(** [try: body / except ValueError: handler]. *)
Definition except_ValueError {A} (body handler : result A) : result A :=
  match body with
  | Raise (ValueError _) => handler
  | _ => body
  end.

Section Operations.

(** The type of the [timeout] argument, passed on untouched. *)
Variable Timeout : Type.
(** The type of a reverse query: a Point, a pair or a string. *)
Variable Query : Type.

(** What an operation does to the outside, in order. *)
Inductive event :=
| Debug (fmt : string) (args : list string)
| Call (url : string) (timeout : Timeout).

(** A computation that leaves a trace of events and returns or raises. *)
Record io (A : Type) := IO { trace : list event; outcome : result A }.
Arguments IO {A} trace outcome.
Arguments trace {A} i.
Arguments outcome {A} i.

#[local] Instance io_ret : MRet io := λ A a, IO [] (Ok a).

#[local] Instance io_bind : MBind io := λ A B k m,
  match outcome m with
  | Ok a => IO (trace m ++ trace (k a)) (outcome (k a))
  | Raise e => IO (trace m) (Raise e)
  end.

Definition lift {A} (r : result A) : io A := IO [] r.

(** The builtins [float(x)] and [template % s]. *)
Variable py_float : value → result PrimFloat.float.
Variable py_mod : string → string → result string.

(** The base class: the transport, which answers a URL with a decoded
    body, [None] or an exception, and the canonical string of a query. *)
Variable _call_geocoder : string → Timeout → result value.
Variable _coerce_point_to_string : Query → result string.

Definition logger_debug (fmt : string) (args : list string) : io unit :=
  IO [Debug fmt args] (Ok tt).

Definition call_geocoder (url : string) (timeout : Timeout) : io value :=
  IO [Call url timeout] (_call_geocoder url timeout).

Definition geocode (self : GeocodeFarm) (query : string)
    (exactly_one : bool) (timeout : Timeout) : io answer :=
  addr ← lift (py_mod (format_string self) query);
  let params := [("addr", addr)] in
  let params :=
    if truthy_key (api_key self)
    then setitem params "key" (default "" (api_key self))
    else params in
  let url := String.concat "?" [api self; urlencode params] in
  _ ← logger_debug "%s.geocode: %s" [class_name self; url];
  api_result ← call_geocoder url timeout;
  lift (_parse_json py_float api_result exactly_one).

Definition reverse (self : GeocodeFarm) (query : Query)
    (exactly_one : bool) (timeout : Timeout) : io answer :=
  '(lat, lon) ← lift (except_ValueError
      (s ← _coerce_point_to_string query;
       unpack2 (strip <$> split "," s))
      (Raise (ValueError "Must be a coordinate pair or Point")));
  let params := [("lat", lat); ("lon", lon)] in
  let params :=
    if truthy_key (api_key self)
    then setitem params "key" (default "" (api_key self))
    else params in
  let url := String.concat "?" [reverse_api self; urlencode params] in
  _ ← logger_debug "%s.reverse: %s" [class_name self; url];
  api_result ← call_geocoder url timeout;
  lift (_parse_json py_float api_result exactly_one).

End Operations.

Arguments IO {Timeout A} trace outcome.
Arguments trace {Timeout A} i.
Arguments outcome {Timeout A} i.
Arguments Debug {Timeout} fmt args.
Arguments Call {Timeout} url timeout.

(** ** Data model of the response *)

(** Lists and dicts cannot be dict keys; every other JSON value can. *)
Definition hashable (v : value) : bool :=
  match v with
  | VList _ | VDict _ => false
  | _ => true
  end.

(** A ResultRecord: a mapping whose [COORDINATES] and [ADDRESS], when
    present, are mappings, and whose latitude and longitude, when both are
    given, are convertible to floating point. *)
Definition ResultRecord (py_float : value → result PrimFloat.float)
    (entry : value) : Prop :=
  ∃ d c a,
    entry = VDict d ∧
    default (VDict ∅) (d !! "COORDINATES") = VDict c ∧
    default (VDict ∅) (d !! "ADDRESS") = VDict a ∧
    (truthy (default VNone (c !! "latitude"))
     && truthy (default VNone (c !! "longitude")) = true →
     is_Ok (py_float (default VNone (c !! "latitude"))) ∧
     is_Ok (py_float (default VNone (c !! "longitude")))).

(** The display name: [address_returned], else [address], else null. *)
Definition placename_of (a : gmap string value) : value :=
  match default VNone (a !! "address_returned") with
  | VNone => default VNone (a !! "address")
  | name => name
  end.

(** A response body: the envelope key with its [STATUS] and the rest. *)
Definition envelope (gr : gmap string value) : value :=
  VDict {[ "geocoding_results" := VDict gr ]}.

(** ** Closed inputs for the examples *)

(** [float(x)] on an argument that is a float already, which it returns
    unchanged.  The closed examples pass it nothing else; like [float], it
    answers [TypeError] to [None], lists and dicts. *)
Definition float_of_float (v : value) : result PrimFloat.float :=
  match v with
  | VFloat f => Ok f
  | _ => Raise TypeError
  end.


(** An entry with both coordinates as JSON numbers and a display name. *)
Definition entry_baker_street : value :=
  VDict {[ "COORDINATES" :=
             VDict {[ "latitude" := VFloat 51.5; "longitude" := VFloat (-0.125) ]};
           "ADDRESS" := VDict {[ "address_returned" := VStr "221B Baker St" ]} ]}.

(** An entry with a display name under [address] and no coordinates. *)
Definition entry_name_only : value :=
  VDict {[ "ADDRESS" := VDict {[ "address" := VStr "Paris" ]} ]}.

(** A successful response without results. *)
Definition success_empty : value :=
  envelope {[ "STATUS" := VDict {[ "status" := VStr "SUCCESS" ]};
              "RESULTS" := VList [] ]}.

(** A response whose [STATUS] has an [access] token and no [status]. *)
Definition access_without_status : value :=
  envelope {[ "STATUS" := VDict {[ "access" := VStr "API_KEY_INVALID" ]} ]}.

(** [template % s] for the template ["%s"], which yields the argument
    itself.  The closed examples use no other template. *)
Definition percent_s (template s : string) : result string :=
  if String.eqb template "%s" then Ok s
  else Raise (OtherError "template outside the examples").

(** A transport that reports no content, whatever the URL. *)
Definition no_content (url : string) (timeout : unit) : result value :=
  Ok VNone.

(** [_coerce_point_to_string] on a query that is a string: the string. *)
Definition coerce_string (query : string) : result string := Ok query.


(** A client with the key ["k1"] and the template ["%s"]. *)
Definition client_k1 : GeocodeFarm := __init__ "GeocodeFarm" (Some "k1") "%s".

(** A decimal numeral: an optional sign, then digits with at most one
    point and at least one digit. *)
Definition is_digit (c : ascii) : bool :=
  let n := nat_of_ascii c in (48 <=? n)%nat && (n <=? 57)%nat.

Fixpoint digits_point (s : string) (seen_point seen_digit : bool) : bool :=
  match s with
  | EmptyString => seen_digit
  | String c s' =>
      if is_digit c then digits_point s' seen_point true
      else if Ascii.eqb c "." && negb seen_point
           then digits_point s' true seen_digit
           else false
  end.

Definition is_numeric (s : string) : bool :=
  match s with
  | EmptyString => false
  | String c s' =>
      if Ascii.eqb c "-" || Ascii.eqb c "+" then digits_point s' false false
      else digits_point s false false
  end.

(** ** Further closed inputs *)

(** [s.count(c)] for a character. *)
Fixpoint count_char (c : ascii) (s : string) : nat :=
  match s with
  | EmptyString => 0
  | String c' s' => (if Ascii.eqb c' c then 1 else 0) + count_char c s'
  end.

(** A transport that answers every URL with the same body. *)
Definition answers (body : value) (url : string) (timeout : unit)
  : result value := Ok body.

(** A transport that fails on every URL. *)
Definition times_out (url : string) (timeout : unit) : result value :=
  Raise (OtherError "GeocoderTimedOut").

(** [_coerce_point_to_string] on a query it rejects as an invalid point,
    and on one that makes it fail otherwise. *)
Definition coerce_invalid (query : unit) : result string :=
  Raise (ValueError "Invalid point").

Definition coerce_broken (query : unit) : result string :=
  Raise AttributeError.

(** An entry whose latitude is a list, which is truthy and which [float]
    rejects with [TypeError]. *)
Definition entry_list_latitude : value :=
  VDict {[ "COORDINATES" :=
             VDict {[ "latitude" := VList [VInt 1]; "longitude" := VFloat 1.5 ]} ]}.

(** An entry whose [COORDINATES] is null. *)
Definition entry_null_coordinates : value :=
  VDict {[ "COORDINATES" := VNone ]}.

(** An entry with an empty [address_returned] and an [address]. *)
Definition entry_empty_name : value :=
  VDict {[ "ADDRESS" := VDict {[ "address_returned" := VStr "";
                                 "address" := VStr "Paris" ]} ]}.

(** A successful response with one result, and a response without. *)
Definition baker_street_response : value :=
  envelope {[ "STATUS" := VDict {[ "status" := VStr "SUCCESS" ]};
              "RESULTS" := VList [entry_baker_street] ]}.

Definition no_results_response : value :=
  envelope {[ "STATUS" := VDict {[ "status" := VStr "FAILED, NO_RESULTS" ]} ]}.

(** * Properties *)

(** ** Tactics for the result monad *)

Lemma bind_Ok {A B} (m : result A) (k : A → result B) (a : A) :
  m = Ok a → (m ≫= k) = k a.
Proof. by intros ->. Qed.

Lemma bind_Ok_inv {A B} (m : result A) (k : A → result B) (b : B) :
  (m ≫= k) = Ok b → ∃ a, m = Ok a ∧ k a = Ok b.
Proof. destruct m as [a|e]; [eauto | discriminate]. Qed.

Lemma is_Ok_Ok {A} (a : A) : is_Ok (Ok a).
Proof. by exists a. Qed.

Lemma not_is_Ok_Raise {A} (e : exn) : ¬ is_Ok (@Raise A e).
Proof. by intros [a ?]. Qed.

#[local] Hint Resolve is_Ok_Ok : core.

(** Splits a successful sequence of binds into its successful steps. *)
Ltac inv_bind H :=
  let a := fresh "x" in
  let Ha := fresh "Hx" in
  apply bind_Ok_inv in H as (a & Ha & H).

(** ** Decoding one entry *)

Section InterpreterFacts.

Variable py_float : value → result PrimFloat.float.

(** [parse_entry] on an entry whose sub-mappings are mappings: only the
    conversion of the coordinates is left. *)
Lemma parse_entry_dict (d c a : gmap string value) :
  default (VDict ∅) (d !! "COORDINATES") = VDict c →
  default (VDict ∅) (d !! "ADDRESS") = VDict a →
  parse_entry py_float (VDict d) =
    let latitude := default VNone (c !! "latitude") in
    let longitude := default VNone (c !! "longitude") in
    if truthy latitude && truthy longitude then
      lat ← py_float latitude;
      lon ← py_float longitude;
      Ok (mkLocation (placename_of a) (VFloat lat, VFloat lon) (VDict d))
    else Ok (mkLocation (placename_of a) (latitude, longitude) (VDict d)).
Proof.
  intros Hc Ha. unfold parse_entry, placename_of. cbn. rewrite Hc, Ha. cbn.
  destruct (default VNone (a !! "address_returned")); cbn;
    (destruct (truthy _ && truthy _); [|done]);
    (destruct (py_float (default VNone (c !! "latitude"))); [|done]); cbn;
    by destruct (py_float (default VNone (c !! "longitude"))).
Qed.

Lemma ResultRecord_parse_entry (entry : value) :
  ResultRecord py_float entry → is_Ok (parse_entry py_float entry).
Proof.
  intros (d & c & a & -> & Hc & Ha & Hfloat).
  rewrite (parse_entry_dict d c a Hc Ha). cbn.
  destruct (truthy _ && truthy _); [|done].
  destruct (Hfloat eq_refl) as [[lat ->] [lon ->]]. by cbn.
Qed.

Lemma parse_entry_raw (entry : value) (place : Location) :
  parse_entry py_float entry = Ok place → raw place = entry.
Proof.
  unfold parse_entry. intros H. repeat inv_bind H.
  case_match. by simplify_eq.
Qed.

(** ** The loop of [parse_code] *)

Lemma parse_code_loop_Forall2 (entries : list value) (decoded : list Location) :
  Forall2 (λ entry place, parse_entry py_float entry = Ok place) entries decoded →
  ∀ places, parse_code_loop py_float entries places = Ok (places ++ decoded).
Proof.
  induction 1 as [|entry place entries decoded Hentry _ IH]; intros places; cbn.
  - by rewrite app_nil_r.
  - rewrite Hentry. cbn. rewrite IH. by rewrite <- app_assoc.
Qed.

(** Conversely, what the loop returns extends [places] by the decoded
    entries, one each and in order. *)
Lemma parse_code_loop_inv (entries : list value) (places out : list Location) :
  parse_code_loop py_float entries places = Ok out →
  ∃ decoded,
    out = places ++ decoded ∧
    Forall2 (λ entry place, parse_entry py_float entry = Ok place) entries decoded.
Proof.
  revert places. induction entries as [|entry entries IH]; intros places; cbn.
  - intros [= <-]. exists []. by rewrite app_nil_r.
  - intros H. inv_bind H. destruct (IH _ H) as (decoded & -> & Hall).
    exists (x :: decoded). split; [by rewrite <- app_assoc|]. by constructor.
Qed.

Lemma Forall_is_Ok_Forall2 (entries : list value) :
  Forall (λ entry, is_Ok (parse_entry py_float entry)) entries →
  ∃ decoded,
    Forall2 (λ entry place, parse_entry py_float entry = Ok place) entries decoded.
Proof.
  induction 1 as [|entry entries [place Hplace] _ [decoded IH]].
  - exists []. constructor.
  - exists (place :: decoded). by constructor.
Qed.

Lemma parse_code_Forall2 (r : gmap string value) (entries : list value) :
  r !! "RESULTS" = Some (VList entries) →
  Forall (ResultRecord py_float) entries →
  ∃ places,
    parse_code py_float (VDict r) = Ok places ∧
    Forall2 (λ entry place, parse_entry py_float entry = Ok place) entries places.
Proof.
  intros Hr Hwf.
  destruct (Forall_is_Ok_Forall2 entries) as [places Hplaces].
  { eapply Forall_impl; [exact Hwf|]. apply ResultRecord_parse_entry. }
  exists places. split; [|done].
  unfold parse_code. cbn. rewrite Hr. cbn.
  by rewrite (parse_code_loop_Forall2 entries places Hplaces []).
Qed.

(** ** Status classification *)

Lemma check_no_results (gr st : gmap string value) (status : string) :
  default (VDict ∅) (gr !! "STATUS") = VDict st →
  default (VStr "") (st !! "status") = VStr status →
  str_contains "NO_RESULTS" status = true →
  _check_for_api_errors (VDict gr) = Ok tt.
Proof.
  intros Hst Hstatus Hno. unfold _check_for_api_errors. cbn.
  rewrite Hst. cbn. rewrite Hstatus. cbn. by rewrite Hno.
Qed.

Lemma check_success (gr st : gmap string value) :
  default (VDict ∅) (gr !! "STATUS") = VDict st →
  default (VStr "") (st !! "status") = VStr "SUCCESS" →
  _check_for_api_errors (VDict gr) = Ok tt.
Proof.
  intros Hst Hstatus. unfold _check_for_api_errors. cbn.
  rewrite Hst. cbn. by rewrite Hstatus.
Qed.

Lemma check_failure (gr st : gmap string value) (status : string) :
  default (VDict ∅) (gr !! "STATUS") = VDict st →
  default (VStr "") (st !! "status") = VStr status →
  str_contains "NO_RESULTS" status = false →
  status ≠ "SUCCESS" →
  _check_for_api_errors (VDict gr) =
    (cls ← dict_get access_error_to_exception (default VNone (st !! "access"))
                     GeocoderServiceError;
     Raise (cls (default VNone (st !! "access")))).
Proof.
  intros Hst Hstatus Hno Hne. unfold _check_for_api_errors. cbn.
  rewrite Hst. cbn. rewrite Hstatus. cbn. rewrite Hno.
  apply String.eqb_neq in Hne. by rewrite Hne.
Qed.

Lemma parse_json_envelope (body gr : gmap string value) (exactly_one : bool) :
  body !! "geocoding_results" = Some (VDict gr) →
  _parse_json py_float (VDict body) exactly_one =
    (_ ← _check_for_api_errors (VDict gr);
     status_result ← py_get (VDict gr) "STATUS" (VDict ∅);
     status ← py_get status_result "status" (VStr "");
     no_results ← py_in "NO_RESULTS" status;
     if no_results : bool then Ok NoResult else
     places ← parse_code py_float (VDict gr);
     if exactly_one then place ← first places; Ok (One place)
     else Ok (Many places)).
Proof. intros Hgr. unfold _parse_json. cbn. by rewrite Hgr. Qed.

Lemma parse_json_failure (body gr st : gmap string value) (status : string)
    (exactly_one : bool) :
  body !! "geocoding_results" = Some (VDict gr) →
  default (VDict ∅) (gr !! "STATUS") = VDict st →
  default (VStr "") (st !! "status") = VStr status →
  str_contains "NO_RESULTS" status = false →
  status ≠ "SUCCESS" →
  hashable (default VNone (st !! "access")) = true →
  _parse_json py_float (VDict body) exactly_one =
    Raise (match default VNone (st !! "access") with
           | VStr token =>
               default GeocoderServiceError (access_error_to_exception !! token)
           | _ => GeocoderServiceError
           end (default VNone (st !! "access"))).
Proof.
  intros Hgr Hst Hstatus Hno Hne Hhash.
  rewrite (parse_json_envelope _ _ _ Hgr).
  rewrite (check_failure gr st status Hst Hstatus Hno Hne).
  by destruct (default VNone (st !! "access")).
Qed.

End InterpreterFacts.

(** ** Coordinates of a decoded entry *)




(** ** Order of the decoded results *)

(** C8: for a [RESULTS] sequence of result records, [parse_code] returns one
    location per entry, in order: the i-th location is the one decoded from
    the i-th entry, and refers to it as its raw mapping. *)
Theorem parse_code_preserves_order
    (py_float : value → result PrimFloat.float)
    (r : gmap string value) (entries : list value) :
  r !! "RESULTS" = Some (VList entries) →
  Forall (ResultRecord py_float) entries →
  ∃ places,
    parse_code py_float (VDict r) = Ok places ∧
    length places = length entries ∧
    ∀ i entry, entries !! i = Some entry →
      ∃ place, places !! i = Some place ∧
               parse_entry py_float entry = Ok place ∧
               raw place = entry.
Proof.
  intros Hr Hwf.
  destruct (parse_code_Forall2 py_float r entries Hr Hwf) as (places & Hcode & Hall).
  exists places. split; [done|]. split.
  - symmetry. by eapply Forall2_length.
  - intros i entry Hi.
    destruct (Forall2_lookup_l _ _ _ _ _ Hall Hi) as (place & Hplace & Hentry).
    exists place. eauto using parse_entry_raw.
Qed.

Lemma ResultRecord_baker_street : ResultRecord float_of_float entry_baker_street.
Proof.
  exists {[ "COORDINATES" :=
             VDict {[ "latitude" := VFloat 51.5; "longitude" := VFloat (-0.125) ]};
           "ADDRESS" := VDict {[ "address_returned" := VStr "221B Baker St" ]} ]},
         {[ "latitude" := VFloat 51.5; "longitude" := VFloat (-0.125) ]},
         {[ "address_returned" := VStr "221B Baker St" ]}.
  repeat split; vm_compute; eauto.
Defined.

Lemma ResultRecord_name_only : ResultRecord float_of_float entry_name_only.
Proof.
  exists {[ "ADDRESS" := VDict {[ "address" := VStr "Paris" ]} ]}, ∅,
         {[ "address" := VStr "Paris" ]}.
  repeat split; vm_compute; eauto; discriminate.
Defined.

Lemma parse_code_preserves_order_witness :
  ∃ places,
    parse_code float_of_float
      (VDict {[ "RESULTS" := VList [entry_baker_street; entry_name_only] ]})
      = Ok places ∧
    length places = 2 ∧
    ∀ i entry, [entry_baker_street; entry_name_only] !! i = Some entry →
      ∃ place, places !! i = Some place ∧
               parse_entry float_of_float entry = Ok place ∧
               raw place = entry.
Proof.
  apply (parse_code_preserves_order float_of_float
           {[ "RESULTS" := VList [entry_baker_street; entry_name_only] ]}
           [entry_baker_street; entry_name_only]).
  - reflexivity.
  - repeat constructor;
      [apply ResultRecord_baker_street | apply ResultRecord_name_only].
Defined.

(** ** Selection of one result *)

(** C2 (as the code has it): for a response whose status is ["SUCCESS"] and
    whose [RESULTS] is a non-empty sequence of result records, the decoded
    sequence is non-empty and begins with the location of the first entry;
    with [exactly_one] the interpreter returns that location, without it the
    whole sequence. *)
Theorem success_selects_first
    (py_float : value → result PrimFloat.float)
    (body gr st : gmap string value) (entry : value) (rest : list value) :
  body !! "geocoding_results" = Some (VDict gr) →
  gr !! "STATUS" = Some (VDict st) →
  st !! "status" = Some (VStr "SUCCESS") →
  gr !! "RESULTS" = Some (VList (entry :: rest)) →
  Forall (ResultRecord py_float) (entry :: rest) →
  ∃ place places,
    parse_entry py_float entry = Ok place ∧
    parse_code py_float (VDict gr) = Ok (place :: places) ∧
    _parse_json py_float (VDict body) true = Ok (One place) ∧
    _parse_json py_float (VDict body) false = Ok (Many (place :: places)).
Proof.
  intros Hgr Hst Hstatus Hres Hwf.
  destruct (parse_code_Forall2 py_float gr _ Hres Hwf) as (all & Hcode & Hall).
  inversion Hall as [|? place ? places Hplace _]; subst.
  exists place, places. split; [done|]. split; [done|].
  rewrite !(parse_json_envelope py_float body gr _ Hgr).
  rewrite (check_success gr st) by (by rewrite ?Hst, ?Hstatus).
  cbn -[parse_code]. rewrite Hst. cbn -[parse_code]. rewrite Hstatus.
  cbn -[parse_code]. by rewrite Hcode.
Qed.

Lemma success_selects_first_witness :
  ∃ place places,
    parse_entry float_of_float entry_baker_street = Ok place ∧
    parse_code float_of_float
      (VDict {[ "STATUS" := VDict {[ "status" := VStr "SUCCESS" ]};
                "RESULTS" := VList [entry_baker_street; entry_name_only] ]})
      = Ok (place :: places) ∧
    _parse_json float_of_float
      (envelope {[ "STATUS" := VDict {[ "status" := VStr "SUCCESS" ]};
                   "RESULTS" := VList [entry_baker_street; entry_name_only] ]})
      true = Ok (One place) ∧
    _parse_json float_of_float
      (envelope {[ "STATUS" := VDict {[ "status" := VStr "SUCCESS" ]};
                   "RESULTS" := VList [entry_baker_street; entry_name_only] ]})
      false = Ok (Many (place :: places)).
Proof.
  apply (success_selects_first float_of_float _ _
           {[ "status" := VStr "SUCCESS" ]} entry_baker_street [entry_name_only]).
  - reflexivity.
  - reflexivity.
  - reflexivity.
  - reflexivity.
  - repeat constructor;
      [apply ResultRecord_baker_street | apply ResultRecord_name_only].
Defined.

(** C2 as stated fails: a ["SUCCESS"] status with an empty [RESULTS] is not
    intercepted, the decoded sequence is empty and selecting its first
    element raises [IndexError]. *)
Lemma success_empty_IndexError :
  parse_code float_of_float
    (VDict {[ "STATUS" := VDict {[ "status" := VStr "SUCCESS" ]};
              "RESULTS" := VList [] ]}) = Ok [] ∧
  _parse_json float_of_float success_empty true = Raise IndexError.
Proof. split; vm_compute; reflexivity. Qed.

(** ** Failures *)

Lemma access_error_other (token : string) :
  token ≠ "API_KEY_INVALID" → token ≠ "OVER_QUERY_LIMIT" →
  access_error_to_exception !! token = None.
Proof.
  intros H1 H2. unfold access_error_to_exception.
  rewrite lookup_insert_ne by done. by rewrite lookup_singleton_ne.
Qed.

(** C3: for a response whose status is neither ["SUCCESS"] nor contains
    ["NO_RESULTS"], the interpreter raises; the access token
    ["API_KEY_INVALID"] gives [GeocoderAuthenticationFailure],
    ["OVER_QUERY_LIMIT"] gives [GeocoderQuotaExceeded], and any other
    hashable access value, absent included, gives [GeocoderServiceError];
    each carries the access value. *)
Theorem failure_kind_by_access
    (py_float : value → result PrimFloat.float)
    (body gr st : gmap string value) (status : string) (exactly_one : bool) :
  body !! "geocoding_results" = Some (VDict gr) →
  gr !! "STATUS" = Some (VDict st) →
  st !! "status" = Some (VStr status) →
  status ≠ "SUCCESS" →
  str_contains "NO_RESULTS" status = false →
  let access := default VNone (st !! "access") in
  (access = VStr "API_KEY_INVALID" →
     _parse_json py_float (VDict body) exactly_one
       = Raise (GeocoderAuthenticationFailure access)) ∧
  (access = VStr "OVER_QUERY_LIMIT" →
     _parse_json py_float (VDict body) exactly_one
       = Raise (GeocoderQuotaExceeded access)) ∧
  (access ≠ VStr "API_KEY_INVALID" → access ≠ VStr "OVER_QUERY_LIMIT" →
   hashable access = true →
     _parse_json py_float (VDict body) exactly_one
       = Raise (GeocoderServiceError access)).
Proof.
  intros Hgr Hst Hstatus Hne Hno access.
  pose proof (parse_json_failure py_float body gr st status exactly_one Hgr)
    as Hraise.
  rewrite Hst, Hstatus in Hraise. specialize (Hraise eq_refl eq_refl Hno Hne).
  fold access in Hraise. split; [|split].
  - intros Heq. rewrite Hraise by (by rewrite Heq). by rewrite Heq.
  - intros Heq. rewrite Hraise by (by rewrite Heq). by rewrite Heq.
  - intros H1 H2 Hhash. rewrite Hraise by done.
    destruct access as [| | | |token| |]; try done.
    rewrite access_error_other; [done| |]; congruence.
Qed.

Lemma failure_kind_by_access_witness :
  _parse_json float_of_float
    (envelope {[ "STATUS" := VDict {[ "status" := VStr "FAILURE";
                                      "access" := VStr "UNKNOWN_ERROR" ]} ]})
    true = Raise (GeocoderServiceError (VStr "UNKNOWN_ERROR")).
Proof.
  refine (proj2 (proj2 (failure_kind_by_access float_of_float
    {[ "geocoding_results" :=
         VDict {[ "STATUS" := VDict {[ "status" := VStr "FAILURE";
                                       "access" := VStr "UNKNOWN_ERROR" ]} ]} ]}
    {[ "STATUS" := VDict {[ "status" := VStr "FAILURE";
                            "access" := VStr "UNKNOWN_ERROR" ]} ]}
    {[ "status" := VStr "FAILURE"; "access" := VStr "UNKNOWN_ERROR" ]}
    "FAILURE" true eq_refl eq_refl eq_refl _ eq_refl)) _ _ eq_refl).
  - discriminate.
  - intros H. vm_compute in H. discriminate H.
  - intros H. vm_compute in H. discriminate H.
Defined.

(** ** No results *)

(** C4: for a response whose status contains ["NO_RESULTS"], the
    interpreter returns [None] and raises nothing, whatever [exactly_one]
    and the access value are. *)
Theorem no_results_returns_None
    (py_float : value → result PrimFloat.float)
    (body gr st : gmap string value) (status : string) (exactly_one : bool) :
  body !! "geocoding_results" = Some (VDict gr) →
  gr !! "STATUS" = Some (VDict st) →
  st !! "status" = Some (VStr status) →
  str_contains "NO_RESULTS" status = true →
  _check_for_api_errors (VDict gr) = Ok tt ∧
  _parse_json py_float (VDict body) exactly_one = Ok NoResult.
Proof.
  intros Hgr Hst Hstatus Hno.
  assert (Hcheck : _check_for_api_errors (VDict gr) = Ok tt).
  { apply (check_no_results gr st status); [by rewrite Hst|by rewrite Hstatus|done]. }
  split; [done|].
  rewrite (parse_json_envelope py_float body gr _ Hgr), Hcheck.
  cbn. rewrite Hst. cbn. rewrite Hstatus. cbn. by rewrite Hno.
Qed.

Lemma no_results_returns_None_witness :
  _check_for_api_errors
    (VDict {[ "STATUS" := VDict {[ "status" := VStr "FAILED, NO_RESULTS";
                                   "access" := VStr "API_KEY_INVALID" ]} ]})
    = Ok tt ∧
  _parse_json float_of_float
    (envelope {[ "STATUS" := VDict {[ "status" := VStr "FAILED, NO_RESULTS";
                                      "access" := VStr "API_KEY_INVALID" ]} ]})
    true = Ok NoResult.
Proof.
  apply (no_results_returns_None float_of_float _ _
           {[ "status" := VStr "FAILED, NO_RESULTS";
              "access" := VStr "API_KEY_INVALID" ]}
           "FAILED, NO_RESULTS" true); reflexivity.
Defined.

(** ** Malformed envelopes *)

(** C9: for a response body that is a mapping without the key
    ["geocoding_results"], the interpreter raises [KeyError] for that key:
    neither [None] nor one of the geocoder's error kinds. *)
Theorem missing_envelope_KeyError
    (py_float : value → result PrimFloat.float)
    (body : gmap string value) (exactly_one : bool) :
  body !! "geocoding_results" = None →
  _parse_json py_float (VDict body) exactly_one
    = Raise (KeyError "geocoding_results").
Proof. intros Hbody. unfold _parse_json. cbn. by rewrite Hbody. Qed.

Lemma missing_envelope_KeyError_witness :
  _parse_json float_of_float (VDict {[ "results" := VList [] ]}) true
    = Raise (KeyError "geocoding_results").
Proof.
  apply (missing_envelope_KeyError float_of_float {[ "results" := VList [] ]} true).
  reflexivity.
Defined.

(** X16: a body that is not [None] and not a mapping (a JSON array, string
    or number) cannot be indexed by the key at all: [TypeError]. *)
Lemma not_a_mapping_TypeError
    (py_float : value → result PrimFloat.float)
    (body : value) (exactly_one : bool) :
  body ≠ VNone → (∀ d, body ≠ VDict d) →
  _parse_json py_float body exactly_one = Raise TypeError.
Proof. intros Hnone Hdict. destruct body; try done. by destruct (Hdict d). Qed.

(** C10 (as the code has it): a response whose envelope has no [STATUS], or
    whose [STATUS] mapping has no [status], is a failure: the interpreter
    raises, and the error is chosen by the access value as for any failure.
    It is [GeocoderServiceError] with a null detail when the access value is
    absent too, in particular when [STATUS] is absent. *)
Theorem missing_status_is_failure
    (py_float : value → result PrimFloat.float)
    (body gr : gmap string value) (exactly_one : bool) :
  body !! "geocoding_results" = Some (VDict gr) →
  (gr !! "STATUS" = None →
     _parse_json py_float (VDict body) exactly_one
       = Raise (GeocoderServiceError VNone)) ∧
  (∀ st, gr !! "STATUS" = Some (VDict st) → st !! "status" = None →
     let access := default VNone (st !! "access") in
     (st !! "access" = None →
        _parse_json py_float (VDict body) exactly_one
          = Raise (GeocoderServiceError VNone)) ∧
     (access = VStr "API_KEY_INVALID" →
        _parse_json py_float (VDict body) exactly_one
          = Raise (GeocoderAuthenticationFailure access)) ∧
     (access = VStr "OVER_QUERY_LIMIT" →
        _parse_json py_float (VDict body) exactly_one
          = Raise (GeocoderQuotaExceeded access)) ∧
     (access ≠ VStr "API_KEY_INVALID" → access ≠ VStr "OVER_QUERY_LIMIT" →
      hashable access = true →
        _parse_json py_float (VDict body) exactly_one
          = Raise (GeocoderServiceError access))).
Proof.
  intros Hgr. split.
  - intros Hst.
    rewrite (parse_json_failure py_float body gr ∅ "" exactly_one Hgr);
      by rewrite ?Hst.
  - intros st Hst Hstatus access.
    pose proof (parse_json_failure py_float body gr st "" exactly_one Hgr)
      as Hraise.
    rewrite Hst, Hstatus in Hraise.
    specialize (Hraise eq_refl eq_refl eq_refl ltac:(done)).
    fold access in Hraise. repeat split.
    + intros Hacc. subst access. rewrite Hacc in *. by rewrite Hraise.
    + intros Heq. rewrite Hraise by (by rewrite Heq). by rewrite Heq.
    + intros Heq. rewrite Hraise by (by rewrite Heq). by rewrite Heq.
    + intros H1 H2 Hhash. rewrite Hraise by done.
      destruct access as [| | | |token| |]; try done.
      rewrite access_error_other; [done| |]; congruence.
Qed.

Lemma missing_status_is_failure_witness :
  _parse_json float_of_float (envelope {[ "RESULTS" := VList [] ]}) true
    = Raise (GeocoderServiceError VNone).
Proof.
  exact (proj1 (missing_status_is_failure float_of_float
                  {[ "geocoding_results" := VDict {[ "RESULTS" := VList [] ]} ]}
                  {[ "RESULTS" := VList [] ]} true eq_refl) eq_refl).
Defined.

(** C10 as stated fails: a [STATUS] without [status] that has the access
    token ["API_KEY_INVALID"] raises [GeocoderAuthenticationFailure] carrying
    the token, not [GeocoderServiceError] with a null detail. *)
Lemma access_without_status_authentication :
  _parse_json float_of_float access_without_status true
    = Raise (GeocoderAuthenticationFailure (VStr "API_KEY_INVALID")).
Proof. vm_compute. reflexivity. Qed.

(** ** Strings: splitting and searching *)

Lemma append_cons (c : ascii) (a b : string) :
  String c a +:+ b = String c (a +:+ b).
Proof. reflexivity. Qed.

Lemma append_nil (b : string) : EmptyString +:+ b = b.
Proof. reflexivity. Qed.

Lemma append_assoc (a b c : string) : (a +:+ b) +:+ c = a +:+ (b +:+ c).
Proof.
  induction a as [|x a IH]; [done|]. by rewrite !append_cons, IH.
Qed.

Lemma append_nil_r (a : string) : a +:+ EmptyString = a.
Proof.
  induction a as [|x a IH]; [done|]. by rewrite append_cons, IH.
Qed.

Lemma occurs_app (x : ascii) (a b : string) :
  occurs x (a +:+ b) = occurs x a || occurs x b.
Proof.
  induction a as [|c a IH]; [done|].
  rewrite append_cons. cbn. rewrite IH. by rewrite orb_assoc.
Qed.

Lemma split_no_sep (sep : ascii) (a : string) :
  occurs sep a = false → split sep a = [a].
Proof.
  induction a as [|c a IH]; [done|]. cbn.
  intros [Hc Ha]%orb_false_elim. rewrite Hc. by rewrite IH.
Qed.

Lemma split_app (sep : ascii) (a b : string) :
  occurs sep a = false →
  split sep (a +:+ String sep b) = a :: split sep b.
Proof.
  induction a as [|c a IH]; rewrite ?append_cons, ?append_nil; cbn.
  - intros _. by rewrite Ascii.eqb_refl.
  - intros [Hc Ha]%orb_false_elim. rewrite Hc. by rewrite IH.
Qed.

Lemma split_once_app (sep : ascii) (a b : string) :
  occurs sep a = false →
  split_once sep (a +:+ String sep b) = Some (a, b).
Proof.
  induction a as [|c a IH]; rewrite ?append_cons, ?append_nil; cbn.
  - intros _. by rewrite Ascii.eqb_refl.
  - intros [Hc Ha]%orb_false_elim. rewrite Hc. by rewrite IH.
Qed.

Lemma before_no_sep (sep : ascii) (a : string) :
  occurs sep a = false → before sep a = a.
Proof.
  induction a as [|c a IH]; [done|]. cbn.
  intros [Hc Ha]%orb_false_elim. rewrite Hc. by rewrite IH.
Qed.

Lemma after_app (sep : ascii) (a b : string) :
  occurs sep a = false → after sep (a +:+ String sep b) = b.
Proof.
  induction a as [|c a IH]; rewrite ?append_cons, ?append_nil; cbn.
  - intros _. by rewrite Ascii.eqb_refl.
  - intros [Hc Ha]%orb_false_elim. rewrite Hc. by rewrite IH.
Qed.

(** ** Trimming *)

(** A whitespace code point at the front is dropped, whatever follows. *)
Lemma lstrip_whitespace (ch s : string) :
  ch ∈ whitespace → lstrip (ch +:+ s) = lstrip s.
Proof.
  unfold whitespace. intros Hch.
  repeat (apply elem_of_cons in Hch as [-> | Hch]; [reflexivity|]).
  by apply elem_of_nil in Hch.
Qed.

(** Text of nothing but whitespace code points is trimmed to nothing. *)
Lemma strip_all_space (s : string) : all_space s = true → strip s = EmptyString.
Proof.
  unfold strip.
  assert (H : ∀ n s, String.length s < n → all_space s = true →
                lstrip s = EmptyString).
  { clear s. induction n as [|n IH]; intros s Hn Hs; [lia|].
    destruct s as [|b1 s1]; [done|]. cbn in Hs |- *.
    destruct (isspace (String b1 EmptyString)).
    { apply IH; [cbn in Hn; lia|done]. }
    destruct s1 as [|b2 s2]; [done|].
    destruct (isspace (String b1 (String b2 EmptyString))).
    { apply IH; [cbn in Hn; lia|done]. }
    destruct s2 as [|b3 s3]; [done|].
    apply andb_true_iff in Hs as [-> Hs]. apply IH; [cbn in Hn; lia|done]. }
  intros Hs. rewrite (H (S (String.length s)) s); [done|lia|done].
Qed.

(** The ends that the two operations meet in practice. *)
Example strip_examples :
  strip " 51.5 " = "51.5" ∧
  strip (utf8 [194; 160] +:+ "51.5") = "51.5" ∧
  strip (" " +:+ utf8 [226; 128; 131] +:+ "-0.125" +:+ utf8 [227; 128; 128; 10])
    = "-0.125" ∧
  strip ("a" +:+ utf8 [226; 128; 139]) = "a" +:+ utf8 [226; 128; 139] ∧
  strip "New York" = "New York".
Proof. repeat split; vm_compute; reflexivity. Qed.

(** ** URL encoding: decoding inverts it *)

Lemma unquote_quote_byte (c : ascii) (t : string) :
  unquote_plus (quote_byte c +:+ t) = String c (unquote_plus t).
Proof. destruct c as [[] [] [] [] [] [] [] []]; reflexivity. Qed.

Lemma unquote_quote_app (s t : string) :
  unquote_plus (quote_plus s +:+ t) = s +:+ unquote_plus t.
Proof.
  induction s as [|c s IH]; [done|]. cbn [quote_plus].
  rewrite append_assoc, unquote_quote_byte.
  by rewrite IH, append_cons.
Qed.

Lemma unquote_quote (s : string) : unquote_plus (quote_plus s) = s.
Proof.
  rewrite <- (append_nil_r (quote_plus s)), unquote_quote_app.
  apply append_nil_r.
Qed.

Lemma quote_byte_no_delimiter (x c : ascii) :
  delimiter x = true → occurs x (quote_byte c) = false.
Proof.
  unfold delimiter. intros H.
  repeat (apply orb_true_iff in H as [H|H]);
    apply Ascii.eqb_eq in H as ->;
    destruct c as [[] [] [] [] [] [] [] []]; reflexivity.
Qed.

Lemma quote_plus_no_delimiter (x : ascii) (s : string) :
  delimiter x = true → occurs x (quote_plus s) = false.
Proof.
  intros Hx. induction s as [|c s IH]; [done|]. cbn [quote_plus].
  by rewrite occurs_app, quote_byte_no_delimiter, IH.
Qed.

Lemma quote_item_no_delimiter (kv : string * string) :
  occurs "&" (quote_item kv) = false ∧ occurs "#" (quote_item kv) = false
  ∧ occurs "?" (quote_item kv) = false.
Proof.
  unfold quote_item.
  repeat split; rewrite !occurs_app, !quote_plus_no_delimiter by done; done.
Qed.

Lemma parse_quote_item (kv : string * string) :
  parse_name_value (quote_item kv) = [kv].
Proof.
  destruct kv as [k v]. unfold parse_name_value, quote_item. cbn [fst snd].
  change ("=" +:+ quote_plus v) with (String "=" (quote_plus v)).
  rewrite split_once_app by (by apply quote_plus_no_delimiter).
  rewrite !unquote_quote.
  by destruct (quote_plus k).
Qed.

Lemma concat_cons (sep x y : string) (l : list string) :
  String.concat sep (x :: y :: l) = x +:+ sep +:+ String.concat sep (y :: l).
Proof. reflexivity. Qed.

Lemma urlencode_no_delimiter (x : ascii) (query : params_t) :
  x = "#"%char ∨ x = "?"%char → occurs x (urlencode query) = false.
Proof.
  intros Hx. unfold urlencode.
  induction query as [|kv [|kv' query] IH]; [done| |].
  - destruct (quote_item_no_delimiter kv) as (_ & Hf & Hq).
    by destruct Hx as [-> | ->].
  - rewrite !fmap_cons, concat_cons, !occurs_app.
    rewrite !fmap_cons in IH. rewrite IH.
    destruct (quote_item_no_delimiter kv) as (_ & Hf & Hq).
    destruct Hx as [-> | ->]; by rewrite ?Hf, ?Hq.
Qed.

(** Decoding a query string inverts [urlencode], item by item and in
    order. *)
Lemma parse_qsl_urlencode (query : params_t) :
  parse_qsl (urlencode query) = query.
Proof.
  unfold parse_qsl, urlencode.
  induction query as [|kv [|kv' query] IH]; [done| |].
  - cbn [fmap list_fmap String.concat].
    rewrite split_no_sep by apply quote_item_no_delimiter.
    cbn [mbind list_bind]. by rewrite parse_quote_item.
  - rewrite !fmap_cons, concat_cons.
    change ("&" +:+ ?s) with (String "&" s).
    rewrite split_app by apply quote_item_no_delimiter.
    rewrite !fmap_cons in IH.
    rewrite bind_cons, IH. by rewrite parse_quote_item.
Qed.

(** The parameter set of a URL made of a base without ['?'] and ['#'] and
    an encoded query. *)
Lemma url_params_concat (base : string) (query : params_t) :
  occurs "?" base = false → occurs "#" base = false →
  url_params (String.concat "?" [base; urlencode query]) = list_to_map query.
Proof.
  intros Hq Hf. unfold url_params, url_query.
  change (String.concat "?" [base; urlencode query])
    with (base +:+ String "?" (urlencode query)).
  rewrite before_no_sep.
  - by rewrite after_app, parse_qsl_urlencode.
  - rewrite occurs_app, Hf. cbn. apply urlencode_no_delimiter. by left.
Qed.

(** The order in which the items of a dict with distinct keys are
    serialised does not change the parameter set. *)
Lemma url_params_any_order (base : string) (query serialised : params_t) :
  occurs "?" base = false → occurs "#" base = false →
  NoDup query.*1 → serialised ≡ₚ query →
  url_params (String.concat "?" [base; urlencode serialised])
  = list_to_map query.
Proof.
  intros Hq Hf Hkeys Hperm. rewrite url_params_concat by done.
  apply list_to_map_proper; [|done]. by rewrite Hperm.
Qed.

(** ** The two operations: what they send *)

Section OperationsFacts.

Variable Timeout : Type.
Variable Query : Type.
Variable py_float : value → result PrimFloat.float.
Variable py_mod : string → string → result string.
Variable _call_geocoder : string → Timeout → result value.
Variable _coerce_point_to_string : Query → result string.

(** [geocode] logs the URL, calls the transport with it once and
    interprets the answer. *)
Lemma geocode_run (self : GeocodeFarm) (query formatted : string)
    (exactly_one : bool) (timeout : Timeout) :
  py_mod (format_string self) query = Ok formatted →
  geocode Timeout py_float py_mod _call_geocoder self query exactly_one timeout
  = let params :=
      if truthy_key (api_key self)
      then [("addr", formatted); ("key", default "" (api_key self))]
      else [("addr", formatted)] in
    let url := String.concat "?" [api self; urlencode params] in
    IO [Debug "%s.geocode: %s" [class_name self; url]; Call url timeout]
       (_call_geocoder url timeout ≫= λ r, _parse_json py_float r exactly_one).
Proof.
  intros Hmod. unfold geocode, lift, logger_debug, call_geocoder.
  rewrite Hmod. unfold mbind, io_bind. cbn [trace outcome app].
  destruct (truthy_key (api_key self));
    cbn [setitem String.eqb Ascii.eqb Bool.eqb];
    by destruct (_call_geocoder _ timeout).
Qed.

(** [reverse] on a canonical string of two parts does the same with the
    trimmed parts. *)
Lemma reverse_two_parts (self : GeocodeFarm) (query : Query)
    (s part1 part2 : string) (exactly_one : bool) (timeout : Timeout) :
  _coerce_point_to_string query = Ok s →
  split "," s = [part1; part2] →
  reverse Timeout Query py_float _call_geocoder _coerce_point_to_string
    self query exactly_one timeout
  = let params :=
      if truthy_key (api_key self)
      then [("lat", strip part1); ("lon", strip part2);
            ("key", default "" (api_key self))]
      else [("lat", strip part1); ("lon", strip part2)] in
    let url := String.concat "?" [reverse_api self; urlencode params] in
    IO [Debug "%s.reverse: %s" [class_name self; url]; Call url timeout]
       (_call_geocoder url timeout ≫= λ r, _parse_json py_float r exactly_one).
Proof.
  intros Hs Hsplit. unfold reverse, lift, logger_debug, call_geocoder.
  rewrite Hs. cbn [mbind result_bind]. rewrite Hsplit.
  cbn [fmap list_fmap unpack2 except_ValueError].
  unfold mbind, io_bind. cbn [trace outcome app].
  destruct (truthy_key (api_key self));
    cbn [setitem String.eqb Ascii.eqb Bool.eqb];
    by destruct (_call_geocoder _ timeout).
Qed.

(** [reverse] on a canonical string of another number of parts stops at
    the unpacking: nothing is logged and nothing is sent. *)
Lemma reverse_not_two_parts (self : GeocodeFarm) (query : Query) (s : string)
    (exactly_one : bool) (timeout : Timeout) :
  _coerce_point_to_string query = Ok s →
  length (split "," s) ≠ 2 →
  reverse Timeout Query py_float _call_geocoder _coerce_point_to_string
    self query exactly_one timeout
  = IO [] (Raise (ValueError "Must be a coordinate pair or Point")).
Proof.
  intros Hs Hlen. unfold reverse, lift. rewrite Hs. cbn [mbind result_bind].
  by destruct (split "," s) as [|a [|b [|c parts]]].
Qed.

Lemma length_two {A} (l : list A) : length l = 2 → ∃ a b, l = [a; b].
Proof. destruct l as [|a [|b [|c l]]]; try done. eauto. Qed.

(** ** Forward requests *)

(** C7: the URL that [geocode] builds decodes to exactly [{addr: formatted}]
    when the API key is null or empty, and to exactly
    [{addr: formatted, key: k}] for a non-empty key [k], where [formatted]
    is the query put into the template.  The URL is the one logged and the
    one given, once, to the transport. *)
Theorem geocode_url_params (cls : string) (key : option string)
    (template query formatted : string) (exactly_one : bool) (timeout : Timeout) :
  py_mod template query = Ok formatted →
  ∃ url,
    trace (geocode Timeout py_float py_mod _call_geocoder
             (__init__ cls key template) query exactly_one timeout)
      = [Debug "%s.geocode: %s" [cls; url]; Call url timeout] ∧
    (key = None ∨ key = Some "" → url_params url = {[ "addr" := formatted ]}) ∧
    (∀ k, key = Some k → k ≠ "" →
       url_params url = {[ "addr" := formatted; "key" := k ]}).
Proof.
  intros Hmod.
  rewrite (geocode_run (__init__ cls key template) query formatted
             exactly_one timeout Hmod).
  cbn [api_key api class_name __init__]. eexists. split; [reflexivity|]. split.
  - intros Hkey. assert (truthy_key key = false) as -> by (by destruct Hkey as [-> | ->]).
    rewrite url_params_concat by done. cbn. apply insert_empty.
  - intros k -> Hk. apply String.eqb_neq in Hk. cbn [truthy_key]. rewrite Hk.
    rewrite url_params_concat by done. cbn. by rewrite insert_empty.
Qed.

(** ** Reverse requests *)


(** C6 (as the code has it): [reverse] rejects a query with the
    [ValueError], before anything is logged or sent, exactly when its
    canonical string does not split on [','] into two parts; a query of two
    parts is given to the transport, whatever the parts are. *)
Theorem reverse_rejects_iff_not_two_parts (self : GeocodeFarm) (query : Query)
    (s : string) (exactly_one : bool) (timeout : Timeout) :
  _coerce_point_to_string query = Ok s →
  let run := reverse Timeout Query py_float _call_geocoder
               _coerce_point_to_string self query exactly_one timeout in
  (length (split "," s) ≠ 2 ↔
     run = IO [] (Raise (ValueError "Must be a coordinate pair or Point"))) ∧
  (length (split "," s) = 2 ↔ ∃ url, Call url timeout ∈ trace run).
Proof.
  intros Hs run.
  destruct (decide (length (split "," s) = 2)) as [Hlen|Hlen].
  - destruct (length_two _ Hlen) as (part1 & part2 & Hsplit).
    pose proof (reverse_two_parts self query s part1 part2 exactly_one timeout
                  Hs Hsplit) as Hrun.
    cbn zeta in Hrun. fold run in Hrun. split; split; try done.
    + rewrite Hrun. discriminate.
    + intros _. eexists. rewrite Hrun. cbn [trace]. by repeat constructor.
  - pose proof (reverse_not_two_parts self query s exactly_one timeout Hs Hlen)
      as Hrun.
    fold run in Hrun. split; split; try done.
    intros [url Hin]. rewrite Hrun in Hin. cbn in Hin. inversion Hin.
Qed.

End OperationsFacts.

Lemma geocode_url_params_witness :
  ∃ url,
    trace (geocode unit float_of_float percent_s no_content client_k1
             "Paris" true tt)
      = [Debug "%s.geocode: %s" ["GeocodeFarm"; url]; Call url tt] ∧
    url_params url = {[ "addr" := "Paris"; "key" := "k1" ]}.
Proof.
  destruct (geocode_url_params unit float_of_float percent_s no_content
              "GeocodeFarm" (Some "k1") "%s" "Paris" "Paris" true tt eq_refl)
    as (url & Htrace & _ & Hkey).
  exists url. split; [exact Htrace|]. by apply Hkey.
Defined.


Lemma reverse_rejects_iff_not_two_parts_witness :
  reverse unit string float_of_float no_content coerce_string client_k1
    "51.5" true tt
  = IO [] (Raise (ValueError "Must be a coordinate pair or Point")).
Proof.
  apply (reverse_rejects_iff_not_two_parts unit string float_of_float
           no_content coerce_string client_k1 "51.5" "51.5" true tt eq_refl).
  cbn. discriminate.
Defined.

(** C6 as stated fails: the parts of ["abc,def"] are not numeric, and the
    query is not rejected: the URL with [lat=abc] and [lon=def] is given to
    the transport, whose answer is returned. *)
Lemma non_numeric_pair_is_sent :
  is_numeric (strip "abc") = false ∧ is_numeric (strip "def") = false ∧
  reverse unit string float_of_float no_content coerce_string client_k1
    "abc,def" true tt
  = IO [Debug "%s.reverse: %s"
          ["GeocodeFarm";
           "https://www.geocode.farm/v3/json/reverse/?lat=abc&lon=def&key=k1"];
        Call "https://www.geocode.farm/v3/json/reverse/?lat=abc&lon=def&key=k1" tt]
       (Ok NoResult).
Proof. repeat split; vm_compute; reflexivity. Qed.


(** * Further properties of the interpreter *)

(** What a decoded entry looked like. *)
Lemma parse_entry_Ok_inv (py_float : value → result PrimFloat.float)
    (entry : value) (place : Location) :
  parse_entry py_float entry = Ok place →
  ∃ d c a,
    entry = VDict d ∧
    default (VDict ∅) (d !! "COORDINATES") = VDict c ∧
    default (VDict ∅) (d !! "ADDRESS") = VDict a ∧
    address place = placename_of a ∧
    raw place = entry.
Proof.
  intros Hplace. pose proof Hplace as H. unfold parse_entry in H.
  destruct entry as [| | | | | |d]; try done. cbn in H.
  destruct (default (VDict ∅) (d !! "COORDINATES")) as [| | | | | |c] eqn:Hc;
    try done.
  destruct (default (VDict ∅) (d !! "ADDRESS")) as [| | | | | |a] eqn:Ha;
    try done.
  exists d, c, a. do 3 (split; [done|]). split; [|by eapply parse_entry_raw].
  rewrite (parse_entry_dict py_float d c a Hc Ha) in Hplace. cbn zeta in Hplace.
  destruct (truthy _ && truthy _); [|by simplify_eq].
  destruct (py_float (default VNone (c !! "latitude"))); [cbn in Hplace|done].
  destruct (py_float (default VNone (c !! "longitude"))); [cbn in Hplace|done].
  by simplify_eq.
Qed.

Lemma parse_code_loop_failure (py_float : value → result PrimFloat.float)
    (good : list value) (bad : value) (rest : list value) (e : exn) :
  Forall (λ entry, is_Ok (parse_entry py_float entry)) good →
  parse_entry py_float bad = Raise e →
  ∀ places, parse_code_loop py_float (good ++ bad :: rest) places = Raise e.
Proof.
  intros Hgood Hbad.
  induction Hgood as [|entry good [place Hplace] _ IH]; intros places; cbn.
  - by rewrite Hbad.
  - rewrite Hplace. cbn. apply IH.
Qed.

(** X1: [parse_code] stops at the first entry that does not decode: it
    raises that entry's exception, whatever follows, and returns no partial
    list. *)
Theorem parse_code_first_failure (py_float : value → result PrimFloat.float)
    (r : gmap string value) (good : list value) (bad : value)
    (rest : list value) (e : exn) :
  r !! "RESULTS" = Some (VList (good ++ bad :: rest)) →
  Forall (λ entry, is_Ok (parse_entry py_float entry)) good →
  parse_entry py_float bad = Raise e →
  parse_code py_float (VDict r) = Raise e.
Proof.
  intros Hr Hgood Hbad. unfold parse_code. cbn. rewrite Hr. cbn.
  by apply parse_code_loop_failure.
Qed.

Lemma parse_code_first_failure_witness :
  parse_code float_of_float
    (VDict {[ "RESULTS" :=
                VList ([entry_name_only]
                         ++ entry_null_coordinates :: [entry_baker_street]) ]})
  = Raise AttributeError.
Proof.
  apply (parse_code_first_failure float_of_float _ [entry_name_only]
           entry_null_coordinates [entry_baker_street] AttributeError).
  - reflexivity.
  - repeat constructor. eexists. vm_compute. reflexivity.
  - vm_compute. reflexivity.
Defined.

(** X2: [parse_code] returns a list exactly when every entry of [RESULTS]
    decodes, and the list is then the decoded entries, one each and in
    order. *)
Theorem parse_code_Ok_iff (py_float : value → result PrimFloat.float)
    (r : gmap string value) (entries : list value) (places : list Location) :
  r !! "RESULTS" = Some (VList entries) →
  parse_code py_float (VDict r) = Ok places ↔
  Forall2 (λ entry place, parse_entry py_float entry = Ok place) entries places.
Proof.
  intros Hr. unfold parse_code. cbn. rewrite Hr. cbn. split.
  - intros H. by destruct (parse_code_loop_inv py_float _ _ _ H) as (? & -> & ?).
  - intros H. by rewrite (parse_code_loop_Forall2 py_float _ _ H []).
Qed.

Lemma parse_code_Ok_iff_witness :
  parse_code float_of_float (VDict {[ "RESULTS" := VList [entry_name_only] ]})
  = Ok [mkLocation (VStr "Paris") (VNone, VNone) entry_name_only].
Proof.
  refine (proj2 (parse_code_Ok_iff float_of_float
           {[ "RESULTS" := VList [entry_name_only] ]} [entry_name_only]
           [mkLocation (VStr "Paris") (VNone, VNone) entry_name_only] _) _).
  - reflexivity.
  - repeat constructor.
Defined.

(** X3: the display name of a decoded entry is its [address_returned]
    whenever that is present and not null, the empty string included; it is
    the [address], or null without one, only when [address_returned] is
    absent or null. *)
Theorem parse_entry_display_name (py_float : value → result PrimFloat.float)
    (d a : gmap string value) (place : Location) :
  default (VDict ∅) (d !! "ADDRESS") = VDict a →
  parse_entry py_float (VDict d) = Ok place →
  (∀ name, a !! "address_returned" = Some name → name ≠ VNone →
     address place = name) ∧
  (a !! "address_returned" = None ∨ a !! "address_returned" = Some VNone →
     address place = default VNone (a !! "address")).
Proof.
  intros Ha Hplace.
  destruct (parse_entry_Ok_inv py_float _ _ Hplace)
    as (d' & c & a' & [= <-] & _ & Ha' & -> & _).
  rewrite Ha in Ha'. injection Ha' as <-. unfold placename_of. split.
  - intros name -> Hname. by destruct name.
  - by intros [-> | ->].
Qed.

Lemma parse_entry_display_name_witness :
  ∃ place, parse_entry float_of_float entry_empty_name = Ok place ∧
           address place = VStr "".
Proof.
  eexists. split; [vm_compute; reflexivity|].
  refine (proj1 (parse_entry_display_name float_of_float
    {[ "ADDRESS" := VDict {[ "address_returned" := VStr "";
                             "address" := VStr "Paris" ]} ]}
    {[ "address_returned" := VStr ""; "address" := VStr "Paris" ]}
    _ eq_refl ltac:(vm_compute; reflexivity)) (VStr "") eq_refl _).
  discriminate.
Defined.

(** X4: an entry that is not a mapping, or whose [COORDINATES] or
    [ADDRESS] is present and not a mapping (null, say), does not decode:
    [parse_entry] raises [AttributeError] before any conversion. *)
Theorem parse_entry_AttributeError (py_float : value → result PrimFloat.float)
    (entry : value) :
  (∀ d, entry ≠ VDict d) ∨
  (∃ d v, entry = VDict d ∧
          (d !! "COORDINATES" = Some v ∨ d !! "ADDRESS" = Some v) ∧
          ∀ m, v ≠ VDict m) →
  parse_entry py_float entry = Raise AttributeError.
Proof.
  intros [Hentry | (d & v & -> & Hv & Hm)]; unfold parse_entry.
  - destruct entry as [| | | | | |d]; try done. by destruct (Hentry d).
  - cbn. destruct Hv as [Hv | Hv].
    + rewrite Hv. cbn. destruct v as [| | | | | |m]; try done.
      by destruct (Hm m).
    + rewrite Hv. cbn.
      destruct (default (VDict ∅) (d !! "COORDINATES")) as [| | | | | |c];
        try done.
      cbn. destruct v as [| | | | | |m]; try done. by destruct (Hm m).
Qed.

Lemma parse_entry_AttributeError_witness :
  parse_entry float_of_float entry_null_coordinates = Raise AttributeError.
Proof.
  apply (parse_entry_AttributeError float_of_float entry_null_coordinates).
  right. exists {[ "COORDINATES" := VNone ]}, VNone.
  split; [reflexivity|]. split; [by left|]. discriminate.
Defined.

(** X5: when the latitude and the longitude of an entry are both truthy,
    an exception of [float] is the entry's: that of the latitude, else that
    of the longitude. *)
Theorem parse_entry_float_failure (py_float : value → result PrimFloat.float)
    (d c a : gmap string value) (e : exn) :
  default (VDict ∅) (d !! "COORDINATES") = VDict c →
  default (VDict ∅) (d !! "ADDRESS") = VDict a →
  let latitude := default VNone (c !! "latitude") in
  let longitude := default VNone (c !! "longitude") in
  truthy latitude && truthy longitude = true →
  (py_float latitude = Raise e → parse_entry py_float (VDict d) = Raise e) ∧
  (is_Ok (py_float latitude) → py_float longitude = Raise e →
     parse_entry py_float (VDict d) = Raise e).
Proof.
  intros Hc Ha latitude longitude Hboth.
  rewrite (parse_entry_dict py_float d c a Hc Ha). cbn zeta.
  fold latitude longitude. rewrite Hboth. split.
  - by intros ->.
  - intros [lat ->] ->. done.
Qed.

Lemma parse_entry_float_failure_witness :
  parse_entry float_of_float entry_list_latitude = Raise TypeError.
Proof.
  refine (proj1 (parse_entry_float_failure float_of_float
    {[ "COORDINATES" :=
         VDict {[ "latitude" := VList [VInt 1]; "longitude" := VFloat 1.5 ]} ]}
    {[ "latitude" := VList [VInt 1]; "longitude" := VFloat 1.5 ]} ∅ TypeError
    eq_refl eq_refl eq_refl) eq_refl).
Defined.

(** X7: a response with the status ["SUCCESS"] and no [RESULTS], or a null
    one, is not an empty result: iterating over [None] raises
    [TypeError]. *)
Theorem success_without_RESULTS_TypeError
    (py_float : value → result PrimFloat.float)
    (body gr st : gmap string value) (exactly_one : bool) :
  body !! "geocoding_results" = Some (VDict gr) →
  gr !! "STATUS" = Some (VDict st) →
  st !! "status" = Some (VStr "SUCCESS") →
  gr !! "RESULTS" = None ∨ gr !! "RESULTS" = Some VNone →
  _parse_json py_float (VDict body) exactly_one = Raise TypeError.
Proof.
  intros Hgr Hst Hstatus Hres.
  rewrite (parse_json_envelope py_float body gr _ Hgr).
  rewrite (check_success gr st) by (by rewrite ?Hst, ?Hstatus).
  cbn. rewrite Hst. cbn. rewrite Hstatus. cbn.
  by destruct Hres as [-> | ->].
Qed.

Lemma success_without_RESULTS_TypeError_witness :
  _parse_json float_of_float
    (envelope {[ "STATUS" := VDict {[ "status" := VStr "SUCCESS" ]} ]}) false
  = Raise TypeError.
Proof.
  apply (success_without_RESULTS_TypeError float_of_float _
           {[ "STATUS" := VDict {[ "status" := VStr "SUCCESS" ]} ]}
           {[ "status" := VStr "SUCCESS" ]} false);
    [reflexivity | reflexivity | reflexivity | by left].
Defined.

(** X8: a response with the status ["SUCCESS"] and an empty [RESULTS]
    gives the empty list without [exactly_one], and [IndexError] with
    it. *)
Theorem success_empty_RESULTS
    (py_float : value → result PrimFloat.float)
    (body gr st : gmap string value) :
  body !! "geocoding_results" = Some (VDict gr) →
  gr !! "STATUS" = Some (VDict st) →
  st !! "status" = Some (VStr "SUCCESS") →
  gr !! "RESULTS" = Some (VList []) →
  _parse_json py_float (VDict body) false = Ok (Many []) ∧
  _parse_json py_float (VDict body) true = Raise IndexError.
Proof.
  intros Hgr Hst Hstatus Hres.
  rewrite !(parse_json_envelope py_float body gr _ Hgr).
  rewrite (check_success gr st) by (by rewrite ?Hst, ?Hstatus).
  cbn. rewrite Hst. cbn. rewrite Hstatus. cbn. by rewrite Hres.
Qed.

Lemma success_empty_RESULTS_witness :
  _parse_json float_of_float success_empty false = Ok (Many []) ∧
  _parse_json float_of_float success_empty true = Raise IndexError.
Proof.
  apply (success_empty_RESULTS float_of_float _
           {[ "STATUS" := VDict {[ "status" := VStr "SUCCESS" ]};
              "RESULTS" := VList [] ]}
           {[ "status" := VStr "SUCCESS" ]}); reflexivity.
Defined.

Lemma py_get_Ok_inv (v : value) (key : string) (dflt x : value) :
  py_get v key dflt = Ok x → ∃ d, v = VDict d ∧ x = default dflt (d !! key).
Proof. destruct v; try done. intros [= <-]. eauto. Qed.

(** X9: what the interpreter returns has the shape [exactly_one] asks for:
    with it [None] or a single location, never a list; without it [None]
    or a list, never a single location. *)
Theorem parse_json_shape (py_float : value → result PrimFloat.float)
    (body : value) (exactly_one : bool) (a : answer) :
  _parse_json py_float body exactly_one = Ok a →
  a = NoResult ∨
  (exactly_one = true ∧ ∃ place, a = One place) ∨
  (exactly_one = false ∧ ∃ places, a = Many places).
Proof.
  intros H. unfold _parse_json in H.
  destruct body; try (by simplify_eq); try (left; by simplify_eq).
  inv_bind H. inv_bind H. inv_bind H. inv_bind H.
  apply bind_Ok_inv in H as (no_results & _ & H).
  destruct no_results; [left; by simplify_eq|]. right.
  apply bind_Ok_inv in H as (places & _ & H).
  destruct exactly_one.
  - left. apply bind_Ok_inv in H as (place & _ & H). simplify_eq. eauto.
  - right. simplify_eq. eauto.
Qed.

Lemma parse_json_shape_witness :
  let place := mkLocation (VStr "221B Baker St") (VFloat 51.5, VFloat (-0.125))
                 entry_baker_street in
  One place = NoResult ∨
  (true = true ∧ ∃ place', One place = One place') ∨
  (true = false ∧ ∃ places, One place = Many places).
Proof.
  apply (parse_json_shape float_of_float baker_street_response true).
  vm_compute. reflexivity.
Defined.

(** X10: the interpreter returns [None] only for a body that is [None] or
    whose status contains ["NO_RESULTS"]. *)
Theorem NoResult_only_without_results
    (py_float : value → result PrimFloat.float)
    (body : value) (exactly_one : bool) :
  _parse_json py_float body exactly_one = Ok NoResult →
  body = VNone ∨
  ∃ b gr st,
    body = VDict b ∧ b !! "geocoding_results" = Some (VDict gr) ∧
    default (VDict ∅) (gr !! "STATUS") = VDict st ∧
    py_in "NO_RESULTS" (default (VStr "") (st !! "status")) = Ok true.
Proof.
  intros H. unfold _parse_json in H.
  destruct body as [| | | | | |b]; try (by simplify_eq); [by left|]. right.
  inv_bind H. inv_bind H.
  apply bind_Ok_inv in H as (s & Hs & H).
  apply bind_Ok_inv in H as (status & Hstatus & H).
  apply bind_Ok_inv in H as (no_results & Hin & H).
  apply py_get_Ok_inv in Hs as (gr & -> & ->).
  apply py_get_Ok_inv in Hstatus as (st & Hst & ->).
  exists b, gr, st. cbn in Hx. destruct (b !! "geocoding_results"); [|done].
  injection Hx as ->. do 3 (split; [done|]).
  destruct no_results; [done|].
  inv_bind H. destruct exactly_one; [inv_bind H|]; by simplify_eq.
Qed.

Lemma NoResult_only_without_results_witness :
  no_results_response = VNone ∨
  ∃ b gr st,
    no_results_response = VDict b ∧
    b !! "geocoding_results" = Some (VDict gr) ∧
    default (VDict ∅) (gr !! "STATUS") = VDict st ∧
    py_in "NO_RESULTS" (default (VStr "") (st !! "status")) = Ok true.
Proof.
  apply (NoResult_only_without_results float_of_float no_results_response true).
  vm_compute. reflexivity.
Defined.

(** X11: for a status that is a string, [_check_for_api_errors] returns
    exactly when the status contains ["NO_RESULTS"] or equals ["SUCCESS"];
    every other status raises, whatever the access value is. *)
Theorem check_returns_iff (gr st : gmap string value) (status : string) :
  default (VDict ∅) (gr !! "STATUS") = VDict st →
  default (VStr "") (st !! "status") = VStr status →
  _check_for_api_errors (VDict gr) = Ok tt ↔
  str_contains "NO_RESULTS" status = true ∨ status = "SUCCESS".
Proof.
  intros Hst Hstatus. split.
  - intros Hcheck.
    destruct (str_contains "NO_RESULTS" status) eqn:Hno; [by left|].
    destruct (decide (status = "SUCCESS")) as [|Hne]; [by right|].
    rewrite (check_failure gr st status Hst Hstatus Hno Hne) in Hcheck.
    by destruct (dict_get _ _ _).
  - intros [Hno | ->].
    + by apply (check_no_results gr st status).
    + by apply (check_success gr st).
Qed.

Lemma check_returns_iff_witness :
  _check_for_api_errors
    (VDict {[ "STATUS" := VDict {[ "status" := VStr "SUCCESS";
                                   "access" := VStr "API_KEY_INVALID" ]} ]})
  = Ok tt.
Proof.
  refine (proj2 (check_returns_iff
    {[ "STATUS" := VDict {[ "status" := VStr "SUCCESS";
                            "access" := VStr "API_KEY_INVALID" ]} ]}
    {[ "status" := VStr "SUCCESS"; "access" := VStr "API_KEY_INVALID" ]}
    "SUCCESS" _ _) _).
  - reflexivity.
  - vm_compute. reflexivity.
  - by right.
Defined.

Lemma check_raises_cases (geocoding_results : value) (e : exn) :
  _check_for_api_errors geocoding_results = Raise e →
  match e with
  | AttributeError | TypeError => True
  | GeocoderAuthenticationFailure detail => detail = VStr "API_KEY_INVALID"
  | GeocoderQuotaExceeded detail => detail = VStr "OVER_QUERY_LIMIT"
  | GeocoderServiceError detail =>
      detail ≠ VStr "API_KEY_INVALID" ∧ detail ≠ VStr "OVER_QUERY_LIMIT" ∧
      hashable detail = true
  | _ => False
  end.
Proof.
  unfold _check_for_api_errors.
  destruct geocoding_results as [| | | | | |gr]; try (by intros [= <-]). cbn.
  destruct (default (VDict ∅) (gr !! "STATUS")) as [| | | | | |st];
    try (by intros [= <-]). cbn.
  assert (Hin : py_in "NO_RESULTS" (default (VStr "") (st !! "status"))
                = Raise TypeError
                ∨ is_Ok (py_in "NO_RESULTS" (default (VStr "") (st !! "status"))))
    by (destruct (default (VStr "") (st !! "status")); cbn; eauto).
  destruct Hin as [-> | [[] ->]]; cbn; [by intros [= <-]|done|].
  destruct (eq_str _ "SUCCESS"); [done|]. cbn.
  destruct (default VNone (st !! "access")) as [| | | |token| |]; cbn;
    try (by intros [= <-]).
  destruct (decide (token = "API_KEY_INVALID")) as [->|H1];
    [by intros [= <-]|].
  destruct (decide (token = "OVER_QUERY_LIMIT")) as [->|H2];
    [by intros [= <-]|].
  rewrite access_error_other by done. cbn. intros [= <-].
  repeat split; congruence.
Qed.

(** X12: whatever the response, [_check_for_api_errors] raises nothing but
    [AttributeError], [TypeError] and the three geocoder errors; an
    authentication failure always carries ["API_KEY_INVALID"], an exceeded
    quota ["OVER_QUERY_LIMIT"], and a service error a hashable value that is
    neither. *)
Theorem check_raises_inv (geocoding_results : value) (e : exn) :
  _check_for_api_errors geocoding_results = Raise e →
  e = AttributeError ∨ e = TypeError ∨
  e = GeocoderAuthenticationFailure (VStr "API_KEY_INVALID") ∨
  e = GeocoderQuotaExceeded (VStr "OVER_QUERY_LIMIT") ∨
  ∃ detail, e = GeocoderServiceError detail ∧
            detail ≠ VStr "API_KEY_INVALID" ∧
            detail ≠ VStr "OVER_QUERY_LIMIT" ∧ hashable detail = true.
Proof.
  intros H%check_raises_cases.
  destruct e; try done; [by left|by right; left|..].
  - subst. by right; right; left.
  - subst. by right; right; right; left.
  - right; right; right; right. by exists detail.
Qed.

Lemma check_raises_inv_witness :
  let e := GeocoderServiceError (VStr "UNKNOWN_ERROR") in
  e = AttributeError ∨ e = TypeError ∨
  e = GeocoderAuthenticationFailure (VStr "API_KEY_INVALID") ∨
  e = GeocoderQuotaExceeded (VStr "OVER_QUERY_LIMIT") ∨
  ∃ detail, e = GeocoderServiceError detail ∧
            detail ≠ VStr "API_KEY_INVALID" ∧
            detail ≠ VStr "OVER_QUERY_LIMIT" ∧ hashable detail = true.
Proof.
  apply (check_raises_inv
    (VDict {[ "STATUS" := VDict {[ "status" := VStr "FAILURE";
                                   "access" := VStr "UNKNOWN_ERROR" ]} ]})).
  vm_compute. reflexivity.
Defined.

(** X13: an envelope that is present and not a mapping, or whose [STATUS]
    is present and not a mapping, makes the interpreter raise
    [AttributeError]. *)
Theorem malformed_envelope_AttributeError
    (py_float : value → result PrimFloat.float)
    (body : gmap string value) (v : value) (exactly_one : bool) :
  body !! "geocoding_results" = Some v →
  (∀ gr, v ≠ VDict gr) ∨
  (∃ gr s, v = VDict gr ∧ gr !! "STATUS" = Some s ∧ ∀ st, s ≠ VDict st) →
  _parse_json py_float (VDict body) exactly_one = Raise AttributeError.
Proof.
  intros Hbody Hv. unfold _parse_json. cbn. rewrite Hbody. cbn.
  destruct Hv as [Hv | (gr & s & -> & Hs & Hst)].
  - destruct v as [| | | | | |gr]; try done. by destruct (Hv gr).
  - unfold _check_for_api_errors. cbn. rewrite Hs. cbn.
    destruct s as [| | | | | |st]; try done. by destruct (Hst st).
Qed.

Lemma malformed_envelope_AttributeError_witness :
  _parse_json float_of_float (VDict {[ "geocoding_results" := VNone ]}) true
  = Raise AttributeError.
Proof.
  apply (malformed_envelope_AttributeError float_of_float
           {[ "geocoding_results" := VNone ]} VNone true).
  - reflexivity.
  - left. discriminate.
Defined.

(** X14: a status that is null, a boolean or a number cannot be searched
    for ["NO_RESULTS"]: the interpreter raises [TypeError], whatever the
    access value is. *)
Theorem scalar_status_TypeError
    (py_float : value → result PrimFloat.float)
    (body gr st : gmap string value) (status : value) (exactly_one : bool) :
  body !! "geocoding_results" = Some (VDict gr) →
  gr !! "STATUS" = Some (VDict st) →
  st !! "status" = Some status →
  (status = VNone ∨ (∃ b, status = VBool b) ∨ (∃ z, status = VInt z)
   ∨ ∃ f, status = VFloat f) →
  _parse_json py_float (VDict body) exactly_one = Raise TypeError.
Proof.
  intros Hgr Hst Hstatus Hscalar.
  rewrite (parse_json_envelope py_float body gr _ Hgr).
  unfold _check_for_api_errors. cbn. rewrite Hst. cbn. rewrite Hstatus. cbn.
  by destruct Hscalar as [-> | [[b ->] | [[z ->] | [f ->]]]].
Qed.

Lemma scalar_status_TypeError_witness :
  _parse_json float_of_float
    (envelope {[ "STATUS" := VDict {[ "status" := VNone ]} ]}) true
  = Raise TypeError.
Proof.
  apply (scalar_status_TypeError float_of_float _
           {[ "STATUS" := VDict {[ "status" := VNone ]} ]}
           {[ "status" := VNone ]} VNone true);
    [reflexivity | reflexivity | reflexivity | by left].
Defined.

(** X15: on a failure status, an access value that is a list or a mapping
    cannot be looked up in the table of errors: the interpreter raises
    [TypeError], not a geocoder error. *)
Theorem unhashable_access_TypeError
    (py_float : value → result PrimFloat.float)
    (body gr st : gmap string value) (status : string) (access : value)
    (exactly_one : bool) :
  body !! "geocoding_results" = Some (VDict gr) →
  gr !! "STATUS" = Some (VDict st) →
  default (VStr "") (st !! "status") = VStr status →
  str_contains "NO_RESULTS" status = false →
  status ≠ "SUCCESS" →
  st !! "access" = Some access →
  hashable access = false →
  _parse_json py_float (VDict body) exactly_one = Raise TypeError.
Proof.
  intros Hgr Hst Hstatus Hno Hne Haccess Hhash.
  rewrite (parse_json_envelope py_float body gr _ Hgr).
  rewrite (check_failure gr st status) by (by rewrite ?Hst).
  rewrite Haccess. cbn. by destruct access.
Qed.

Lemma unhashable_access_TypeError_witness :
  _parse_json float_of_float
    (envelope {[ "STATUS" := VDict {[ "access" := VList [] ]} ]}) true
  = Raise TypeError.
Proof.
  apply (unhashable_access_TypeError float_of_float _
           {[ "STATUS" := VDict {[ "access" := VList [] ]} ]}
           {[ "access" := VList [] ]} "" (VList []) true);
    try reflexivity. discriminate.
Defined.

Lemma not_a_mapping_TypeError_witness :
  _parse_json float_of_float (VList []) true = Raise TypeError.
Proof.
  apply (not_a_mapping_TypeError float_of_float (VList []) true); discriminate.
Defined.

Lemma parse_json_success (py_float : value → result PrimFloat.float)
    (body gr st : gmap string value) (exactly_one : bool) :
  body !! "geocoding_results" = Some (VDict gr) →
  gr !! "STATUS" = Some (VDict st) →
  st !! "status" = Some (VStr "SUCCESS") →
  _parse_json py_float (VDict body) exactly_one =
    (places ← parse_code py_float (VDict gr);
     if exactly_one then place ← first places; Ok (One place)
     else Ok (Many places)).
Proof.
  intros Hgr Hst Hstatus.
  rewrite (parse_json_envelope py_float body gr _ Hgr).
  rewrite (check_success gr st) by (by rewrite ?Hst, ?Hstatus).
  cbn -[parse_code]. rewrite Hst. cbn -[parse_code]. by rewrite Hstatus.
Qed.

Lemma parse_json_no_results (py_float : value → result PrimFloat.float)
    (body gr st : gmap string value) (status : string) (exactly_one : bool) :
  body !! "geocoding_results" = Some (VDict gr) →
  gr !! "STATUS" = Some (VDict st) →
  st !! "status" = Some (VStr status) →
  str_contains "NO_RESULTS" status = true →
  _parse_json py_float (VDict body) exactly_one = Ok NoResult.
Proof.
  intros Hgr Hst Hstatus Hno.
  rewrite (parse_json_envelope py_float body gr _ Hgr).
  rewrite (check_no_results gr st status) by (by rewrite ?Hst, ?Hstatus).
  cbn. rewrite Hst. cbn. rewrite Hstatus. cbn. by rewrite Hno.
Qed.

(** * Further properties of the two operations *)

Lemma length_split (sep : ascii) (s : string) :
  length (split sep s) = S (count_char sep s).
Proof.
  induction s as [|c s IH]; [done|]. cbn.
  destruct (Ascii.eqb c sep); cbn; [by rewrite IH|].
  destruct (split sep s); cbn in *; lia.
Qed.

Section OperationsMore.

Variable Timeout : Type.
Variable Query : Type.
Variable py_float : value → result PrimFloat.float.
Variable py_mod : string → string → result string.
Variable _call_geocoder : string → Timeout → result value.
Variable _coerce_point_to_string : Query → result string.

Local Abbreviation geocode' :=
  (geocode Timeout py_float py_mod _call_geocoder).
Local Abbreviation reverse' :=
  (reverse Timeout Query py_float _call_geocoder _coerce_point_to_string).

(** X17: [geocode] contacts the transport at most once.  Either the
    template rejects the query, the exception is raised and nothing is
    logged or sent; or one URL is logged, then given to the transport, and
    the outcome is what the interpreter makes of the transport's answer. *)
Theorem geocode_calls_at_most_once (self : GeocodeFarm) (query : string)
    (exactly_one : bool) (timeout : Timeout) :
  let run := geocode' self query exactly_one timeout in
  (∃ e, py_mod (format_string self) query = Raise e ∧ run = IO [] (Raise e)) ∨
  (∃ formatted url,
     py_mod (format_string self) query = Ok formatted ∧
     trace run = [Debug "%s.geocode: %s" [class_name self; url];
                  Call url timeout] ∧
     outcome run = (_call_geocoder url timeout
                      ≫= λ r, _parse_json py_float r exactly_one)).
Proof.
  intros run. destruct (py_mod (format_string self) query) as [formatted|e] eqn:Hmod.
  - right. exists formatted. subst run.
    rewrite (geocode_run Timeout py_float py_mod _call_geocoder self query
               formatted exactly_one timeout Hmod).
    cbn zeta. eauto.
  - left. exists e. split; [done|]. subst run. unfold geocode, lift.
    by rewrite Hmod.
Qed.

(** X18: when the canonical string of a reverse query cannot be made,
    [reverse] raises before anything is logged or sent: a [ValueError] of
    [_coerce_point_to_string] becomes the [ValueError] "Must be a
    coordinate pair or Point", any other exception passes unchanged. *)
Theorem reverse_coercion_error (self : GeocodeFarm) (query : Query)
    (exactly_one : bool) (timeout : Timeout) (e : exn) :
  _coerce_point_to_string query = Raise e →
  reverse' self query exactly_one timeout
  = IO [] (Raise match e with
                 | ValueError _ => ValueError "Must be a coordinate pair or Point"
                 | _ => e
                 end).
Proof.
  intros He. unfold reverse, lift. rewrite He. by destruct e.
Qed.

(** X19: [reverse] contacts the transport at most once.  Either it raises
    and nothing is logged or sent; or one URL is logged, then given to the
    transport, and the outcome is what the interpreter makes of the
    transport's answer. *)
Theorem reverse_calls_at_most_once (self : GeocodeFarm) (query : Query)
    (exactly_one : bool) (timeout : Timeout) :
  let run := reverse' self query exactly_one timeout in
  (∃ e, run = IO [] (Raise e)) ∨
  (∃ url,
     trace run = [Debug "%s.reverse: %s" [class_name self; url];
                  Call url timeout] ∧
     outcome run = (_call_geocoder url timeout
                      ≫= λ r, _parse_json py_float r exactly_one)).
Proof.
  intros run. destruct (_coerce_point_to_string query) as [s|e] eqn:Hs.
  - destruct (decide (length (split "," s) = 2)) as [Hlen|Hlen].
    + destruct (length_two _ Hlen) as (part1 & part2 & Hsplit). right.
      subst run.
      rewrite (reverse_two_parts Timeout Query py_float _call_geocoder
                 _coerce_point_to_string self query s part1 part2
                 exactly_one timeout Hs Hsplit).
      cbn zeta. eauto.
    + left. eexists.
      by apply (reverse_not_two_parts Timeout Query py_float _call_geocoder
                  _coerce_point_to_string self query s).
  - left. eexists. by apply reverse_coercion_error.
Qed.

(** X20: an exception of the transport passes through both operations
    unchanged, after the one log entry and the one call. *)
Theorem transport_error_propagates (self : GeocodeFarm) (exactly_one : bool)
    (timeout : Timeout) (e : exn) :
  (∀ url, _call_geocoder url timeout = Raise e) →
  (∀ query, is_Ok (py_mod (format_string self) query) →
     outcome (geocode' self query exactly_one timeout) = Raise e ∧
     length (trace (geocode' self query exactly_one timeout)) = 2) ∧
  (∀ query s, _coerce_point_to_string query = Ok s →
     length (split "," s) = 2 →
     outcome (reverse' self query exactly_one timeout) = Raise e ∧
     length (trace (reverse' self query exactly_one timeout)) = 2).
Proof.
  intros Hcall. split.
  - intros query [formatted Hmod].
    rewrite (geocode_run Timeout py_float py_mod _call_geocoder self query
               formatted exactly_one timeout Hmod).
    cbn zeta. cbn [outcome trace]. by rewrite Hcall.
  - intros query s Hs Hlen.
    destruct (length_two _ Hlen) as (part1 & part2 & Hsplit).
    rewrite (reverse_two_parts Timeout Query py_float _call_geocoder
               _coerce_point_to_string self query s part1 part2
               exactly_one timeout Hs Hsplit).
    cbn zeta. cbn [outcome trace]. by rewrite Hcall.
Qed.

(** X21: when the transport reports no content, both operations return
    [None], with or without [exactly_one]. *)
Theorem no_content_returns_None (self : GeocodeFarm) (exactly_one : bool)
    (timeout : Timeout) :
  (∀ url, _call_geocoder url timeout = Ok VNone) →
  (∀ query, is_Ok (py_mod (format_string self) query) →
     outcome (geocode' self query exactly_one timeout) = Ok NoResult) ∧
  (∀ query s, _coerce_point_to_string query = Ok s →
     length (split "," s) = 2 →
     outcome (reverse' self query exactly_one timeout) = Ok NoResult).
Proof.
  intros Hcall. split.
  - intros query [formatted Hmod].
    rewrite (geocode_run Timeout py_float py_mod _call_geocoder self query
               formatted exactly_one timeout Hmod).
    cbn zeta. cbn [outcome]. by rewrite Hcall.
  - intros query s Hs Hlen.
    destruct (length_two _ Hlen) as (part1 & part2 & Hsplit).
    rewrite (reverse_two_parts Timeout Query py_float _call_geocoder
               _coerce_point_to_string self query s part1 part2
               exactly_one timeout Hs Hsplit).
    cbn zeta. cbn [outcome]. by rewrite Hcall.
Qed.

(** X22: when the transport answers with the status ["SUCCESS"] and a
    non-empty [RESULTS] of result records, [geocode] and [reverse] with
    [exactly_one] return the location decoded from the first entry. *)
Theorem operations_return_first (self : GeocodeFarm) (timeout : Timeout)
    (body gr st : gmap string value) (entry : value) (rest : list value) :
  (∀ url, _call_geocoder url timeout = Ok (VDict body)) →
  body !! "geocoding_results" = Some (VDict gr) →
  gr !! "STATUS" = Some (VDict st) →
  st !! "status" = Some (VStr "SUCCESS") →
  gr !! "RESULTS" = Some (VList (entry :: rest)) →
  Forall (ResultRecord py_float) (entry :: rest) →
  ∃ place,
    parse_entry py_float entry = Ok place ∧
    (∀ query, is_Ok (py_mod (format_string self) query) →
       outcome (geocode' self query true timeout) = Ok (One place)) ∧
    (∀ query s, _coerce_point_to_string query = Ok s →
       length (split "," s) = 2 →
       outcome (reverse' self query true timeout) = Ok (One place)).
Proof.
  intros Hcall Hgr Hst Hstatus Hres Hwf.
  destruct (parse_code_Forall2 py_float gr _ Hres Hwf) as (all & Hcode & Hall).
  inversion Hall as [|? place ? places Hplace _]; subst.
  assert (Hjson : _parse_json py_float (VDict body) true = Ok (One place)).
  { rewrite (parse_json_success py_float body gr st true Hgr Hst Hstatus).
    by rewrite Hcode. }
  exists place. split; [done|]. split.
  - intros query [formatted Hmod].
    rewrite (geocode_run Timeout py_float py_mod _call_geocoder self query
               formatted true timeout Hmod).
    cbn zeta. cbn [outcome]. by rewrite Hcall.
  - intros query s Hs Hlen.
    destruct (length_two _ Hlen) as (part1 & part2 & Hsplit).
    rewrite (reverse_two_parts Timeout Query py_float _call_geocoder
               _coerce_point_to_string self query s part1 part2
               true timeout Hs Hsplit).
    cbn zeta. cbn [outcome]. by rewrite Hcall.
Qed.

(** X23: when the transport answers with a status that contains
    ["NO_RESULTS"], [geocode] and [reverse] return [None], with or without
    [exactly_one], after the one call. *)
Theorem operations_no_results (self : GeocodeFarm) (exactly_one : bool)
    (timeout : Timeout) (body gr st : gmap string value) (status : string) :
  (∀ url, _call_geocoder url timeout = Ok (VDict body)) →
  body !! "geocoding_results" = Some (VDict gr) →
  gr !! "STATUS" = Some (VDict st) →
  st !! "status" = Some (VStr status) →
  str_contains "NO_RESULTS" status = true →
  (∀ query, is_Ok (py_mod (format_string self) query) →
     outcome (geocode' self query exactly_one timeout) = Ok NoResult) ∧
  (∀ query s, _coerce_point_to_string query = Ok s →
     length (split "," s) = 2 →
     outcome (reverse' self query exactly_one timeout) = Ok NoResult).
Proof.
  intros Hcall Hgr Hst Hstatus Hno.
  pose proof (parse_json_no_results py_float body gr st status exactly_one
                Hgr Hst Hstatus Hno) as Hjson.
  split.
  - intros query [formatted Hmod].
    rewrite (geocode_run Timeout py_float py_mod _call_geocoder self query
               formatted exactly_one timeout Hmod).
    cbn zeta. cbn [outcome]. by rewrite Hcall.
  - intros query s Hs Hlen.
    destruct (length_two _ Hlen) as (part1 & part2 & Hsplit).
    rewrite (reverse_two_parts Timeout Query py_float _call_geocoder
               _coerce_point_to_string self query s part1 part2
               exactly_one timeout Hs Hsplit).
    cbn zeta. cbn [outcome]. by rewrite Hcall.
Qed.

(** X24: [reverse] sends a query exactly when its canonical string has
    exactly one comma: without a comma, or with two or more (a third
    component, say), it raises the [ValueError]; with one it sends the
    request, even when a part is empty. *)
Theorem reverse_sends_iff_one_comma (self : GeocodeFarm) (query : Query)
    (s : string) (exactly_one : bool) (timeout : Timeout) :
  _coerce_point_to_string query = Ok s →
  let run := reverse' self query exactly_one timeout in
  (count_char "," s = 1 ↔ ∃ url, Call url timeout ∈ trace run) ∧
  (count_char "," s ≠ 1 ↔
     run = IO [] (Raise (ValueError "Must be a coordinate pair or Point"))).
Proof.
  intros Hs run.
  assert (Hcount : count_char "," s = 1 ↔ length (split "," s) = 2)
    by (rewrite length_split; lia).
  destruct (decide (length (split "," s) = 2)) as [Hlen|Hlen].
  - destruct (length_two _ Hlen) as (part1 & part2 & Hsplit).
    pose proof (reverse_two_parts Timeout Query py_float _call_geocoder
                  _coerce_point_to_string self query s part1 part2
                  exactly_one timeout Hs Hsplit) as Hrun.
    cbn zeta in Hrun. fold run in Hrun. split; split.
    + intros _. eexists. rewrite Hrun. cbn [trace]. by repeat constructor.
    + intros _. by apply Hcount.
    + intros Hne. destruct Hne. by apply Hcount.
    + rewrite Hrun. discriminate.
  - pose proof (reverse_not_two_parts Timeout Query py_float _call_geocoder
                  _coerce_point_to_string self query s exactly_one timeout
                  Hs Hlen) as Hrun.
    fold run in Hrun. split; split.
    + intros Hone. destruct Hlen. by apply Hcount.
    + intros [url Hin]. rewrite Hrun in Hin. cbn in Hin. inversion Hin.
    + done.
    + intros _ Hone. destruct Hlen. by apply Hcount.
Qed.

(** X25: the URL that [geocode] logs and sends is the forward endpoint, a
    ['?'], [addr=] with the formatted query encoded, and, only for a key
    that is neither null nor empty, [&key=] with the key encoded. *)
Theorem geocode_url (cls : string) (key : option string)
    (template query formatted : string) (exactly_one : bool)
    (timeout : Timeout) :
  py_mod template query = Ok formatted →
  trace (geocode' (__init__ cls key template) query exactly_one timeout)
  = let url := "https://www.geocode.farm/v3/json/forward/?addr="
               +:+ quote_plus formatted
               +:+ match key with
                   | Some k => if String.eqb k "" then ""
                               else "&key=" +:+ quote_plus k
                   | None => ""
                   end in
    [Debug "%s.geocode: %s" [cls; url]; Call url timeout].
Proof.
  intros Hmod.
  rewrite (geocode_run Timeout py_float py_mod _call_geocoder
             (__init__ cls key template) query formatted exactly_one timeout
             Hmod).
  cbn [api_key api class_name __init__ trace]. cbn zeta.
  destruct key as [k|]; cbn [truthy_key default id];
    [destruct (String.eqb k "")|]; cbn [negb];
    unfold urlencode, quote_item;
    cbn [fmap list_fmap String.concat fst snd];
    rewrite ?append_assoc, ?append_nil_r; reflexivity.
Qed.

End OperationsMore.

Lemma reverse_coercion_error_witness :
  reverse unit unit float_of_float no_content coerce_invalid client_k1 tt
    true tt
  = IO [] (Raise (ValueError "Must be a coordinate pair or Point")).
Proof.
  apply (reverse_coercion_error unit unit float_of_float no_content
           coerce_invalid client_k1 tt true tt (ValueError "Invalid point")).
  reflexivity.
Defined.

Lemma transport_error_propagates_witness :
  outcome (geocode unit float_of_float percent_s times_out client_k1
             "Paris" true tt)
  = Raise (OtherError "GeocoderTimedOut").
Proof.
  apply (transport_error_propagates unit string float_of_float percent_s
           times_out coerce_string client_k1 true tt
           (OtherError "GeocoderTimedOut")).
  - reflexivity.
  - by exists "Paris".
Defined.

Lemma no_content_returns_None_witness :
  outcome (reverse unit string float_of_float no_content coerce_string
             client_k1 "51.5,-0.125" false tt)
  = Ok NoResult.
Proof.
  apply (no_content_returns_None unit string float_of_float percent_s
           no_content coerce_string client_k1 false tt (λ _, eq_refl))
    with (s := "51.5,-0.125"); reflexivity.
Defined.

Lemma operations_return_first_witness :
  ∃ place,
    parse_entry float_of_float entry_baker_street = Ok place ∧
    outcome (geocode unit float_of_float percent_s
               (answers baker_street_response) client_k1
               "221B Baker St" true tt)
    = Ok (One place).
Proof.
  destruct (operations_return_first unit string float_of_float percent_s
              (answers baker_street_response) coerce_string client_k1 tt
              {[ "geocoding_results" :=
                   VDict {[ "STATUS" := VDict {[ "status" := VStr "SUCCESS" ]};
                            "RESULTS" := VList [entry_baker_street] ]} ]}
              {[ "STATUS" := VDict {[ "status" := VStr "SUCCESS" ]};
                 "RESULTS" := VList [entry_baker_street] ]}
              {[ "status" := VStr "SUCCESS" ]} entry_baker_street [])
    as (place & Hplace & Hgeocode & _).
  - reflexivity.
  - reflexivity.
  - reflexivity.
  - reflexivity.
  - reflexivity.
  - repeat constructor. apply ResultRecord_baker_street.
  - exists place. split; [exact Hplace|]. apply Hgeocode.
    by exists "221B Baker St".
Defined.

Lemma operations_no_results_witness :
  outcome (geocode unit float_of_float percent_s
             (answers no_results_response) client_k1 "Atlantis" true tt)
  = Ok NoResult.
Proof.
  apply (operations_no_results unit string float_of_float percent_s
           (answers no_results_response) coerce_string client_k1 true tt
           {[ "geocoding_results" :=
                VDict {[ "STATUS" :=
                           VDict {[ "status" := VStr "FAILED, NO_RESULTS" ]} ]} ]}
           {[ "STATUS" := VDict {[ "status" := VStr "FAILED, NO_RESULTS" ]} ]}
           {[ "status" := VStr "FAILED, NO_RESULTS" ]} "FAILED, NO_RESULTS");
    try reflexivity.
  by exists "Atlantis".
Defined.

Lemma reverse_sends_iff_one_comma_witness :
  reverse unit string float_of_float no_content coerce_string client_k1
    "51.5,-0.125,100" true tt
  = IO [] (Raise (ValueError "Must be a coordinate pair or Point")).
Proof.
  apply (reverse_sends_iff_one_comma unit string float_of_float no_content
           coerce_string client_k1 "51.5,-0.125,100" "51.5,-0.125,100"
           true tt eq_refl).
  cbn. discriminate.
Defined.

Lemma geocode_url_witness :
  trace (geocode unit float_of_float percent_s no_content client_k1
           "Paris, France" true tt)
  = [Debug "%s.geocode: %s"
       ["GeocodeFarm";
        "https://www.geocode.farm/v3/json/forward/?addr=Paris%2C+France&key=k1"];
     Call "https://www.geocode.farm/v3/json/forward/?addr=Paris%2C+France&key=k1"
       tt].
Proof.
  apply (geocode_url unit float_of_float percent_s no_content "GeocodeFarm"
           (Some "k1") "%s" "Paris, France" "Paris, France" true tt eq_refl).
Defined.
